(** * Voice biometric authentication (Redessip Peru): session orchestration

    A shallow embedding of [src/index.js]: the Express handlers
    [POST /biometric/initiate], [POST /biometric/verify/:sessionId],
    [POST /biometric/process-enrollment/:sessionId] and
    [POST /biometric/process-verification/:sessionId], together with
    [calculateRiskScore], [generateVoicePrint] and [verifyVoicePrint].

    The external collaborators (Twilio, Redis, MongoDB, the clock, the
    random generators) are modelled by an explicit [World] that the handlers
    transform and by an [Env] that carries what one request reads from
    outside: the clock, the fresh uuid, [Math.random()], the bcrypt hash and
    whether Twilio accepts the call or the SMS. *)

From Stdlib Require Import ZArith QArith Qround Qpower Lia Lqa.
From stdpp Require Import gmap strings list.

Local Open Scope string_scope.
Local Open Scope Z_scope.

(** ** JavaScript numbers received in a request body *)

(** [amount] is compared with [>] against integer literals only.  A double
    that is not NaN is a rational, and the comparison is exact; anything
    that [ToNumber] sends to NaN (a missing field, a non-numeric string)
    compares false. *)
Inductive JsNumber :=
| NaN
| Num (q : Q).

(** [a > n] of JavaScript, for a number [a] and an integer literal [n]. *)
Definition js_gt (a : JsNumber) (n : Z) : bool :=
  match a with
  | NaN => false
  | Num q => negb (Qle_bool q (inject_Z n))
  end.

(** The order in which amounts are compared: NaN is below and above
    nothing but itself. *)
Definition js_le (a b : JsNumber) : Prop :=
  match a, b with
  | Num x, Num y => (x <= y)%Q
  | NaN, NaN => True
  | _, _ => False
  end.

(** ** The data model *)

Inductive SecurityLevel := LOW | MEDIUM | HIGH | CRITICAL.

(** [VoiceProfileSchema] *)
Module VoiceProfile.
Record t := mk {
  userId : string;                    (* required, unique *)
  phoneNumber : string;               (* required *)
  voicePrint : string;                (* required *)
  enrollmentDate : Z;                 (* default Date.now *)
  lastVerification : option Z;
  verificationAttempts : Z;           (* default 0 *)
  securityLevel : SecurityLevel;      (* default 'MEDIUM' *)
  deviceInfo : option string;         (* metadata.deviceInfo *)
  location : option string;           (* metadata.location *)
  carrier : option string             (* metadata.carrier *)
}.
End VoiceProfile.

(** [AuditLogSchema] *)
Module AuditLog.
Record t := mk {
  sessionId : string;
  phoneNumber : string;
  action : string;
  result : string;
  timestamp : Z;                      (* default Date.now *)
  ipAddress : option string;
  riskScore : option Z
}.
End AuditLog.

Inductive SessionType := ENROLLMENT | VERIFICATION.

(** The object that [initiate] serialises under [session:<sessionId>]. *)
Module Session.
Record t := mk {
  phoneNumber : string;
  callSid : string;
  type : SessionType;
  riskScore : option Z;               (* VERIFICATION only *)
  transactionType : option string;    (* VERIFICATION only *)
  amount : option JsNumber;           (* VERIFICATION only *)
  timestamp : Z
}.
End Session.

(** ** Redis

    Every key the program uses starts with one of four distinct literal
    prefixes, [session:], [confirm:], [challenge:] and [blocked:], so the
    keyspace is four disjoint maps, each from the rest of the key to the
    stored value and the instant (epoch milliseconds) at which it expires. *)
Record Redis := mkRedis {
  session : gmap string (Session.t * Z);
  confirm : gmap string (Z * Z);
  challenge : gmap string (Z * Z);
  blocked : gmap string (string * Z)
}.

(** [GET]: an entry whose time to live has elapsed is gone. *)
Definition live {V : Type} (now : Z) (m : gmap string (V * Z)) (k : string)
  : option V :=
  match m !! k with
  | Some (v, expires) => if now <? expires then Some v else None
  | None => None
  end.

(** [SETEX key ttl value], [ttl] in seconds. *)
Definition setex {V : Type} (now : Z) (k : string) (ttl : Z) (v : V)
    (m : gmap string (V * Z)) : gmap string (V * Z) :=
  <[k := (v, now + ttl * 1000)]> m.

(** ** Calls to the collaborators, in the order they are made *)
Inductive Effect :=
| CallsCreate (url to : string) (sid : option string)
    (* client.calls.create; [None] when the promise rejects *)
| MessagesCreate (to body : string) (ok : bool)   (* client.messages.create *)
| RedisGet (key : string)
| RedisSetex (key : string) (ttl : Z)
| ProfileFindOne (phoneNumber : string)
| ProfileSave (userId : string) (ok : bool)
| AuditSave (action : string).

Record World := mkWorld {
  redis : Redis;
  profiles : list VoiceProfile.t;      (* the VoiceProfile collection *)
  auditLogs : list AuditLog.t;         (* the AuditLog collection *)
  history : list Effect
}.

(** ** What one request reads from outside *)
Record Env := mkEnv {
  now : Z;                   (* new Date() / Date.now(), epoch milliseconds *)
  local_offset : Z;          (* local time minus UTC, milliseconds *)
  uuid : string;             (* uuidv4() *)
  math_random : Q;           (* Math.random(), a double *)
  bcrypt_hash : string;      (* bcrypt.hashSync(_, 10) *)
  call_result : option string;   (* sid of the call, or Twilio rejects *)
  sms_ok : bool;
  ip : option string         (* req.ip *)
}.

(** [new Date().getHours()] *)
Definition getHours (env : Env) : Z :=
  ((now env + local_offset env) / 3600000) mod 24.

(** ** Binary64 arithmetic

    The numbers of the program are IEEE 754 doubles.  A finite double is a
    rational; an arithmetic operation returns the exact result rounded to
    the nearest double, ties to the even significand.  Overflow to Infinity
    is not modelled: every magnitude computed below stays under 2^1024. *)

Definition pow2 (e : Z) : Q := (2 ^ e)%Q.

(** The integer [k] with [2^k <= q < 2^(k+1)], for a positive [q]. *)
Definition ilog2 (q : Q) : Z :=
  let k := Z.log2 (Qnum q) - Z.log2 (Zpos (Qden q)) in
  if Qle_bool (pow2 k) q then k else k - 1.

Definition round_half_even (x : Q) : Z :=
  let f := Qfloor x in
  match (x - inject_Z f ?= 1 # 2)%Q with
  | Lt => f
  | Gt => f + 1
  | Eq => if Z.even f then f else f + 1
  end.

(** The exponent of the last place of the doubles around [q]: 53 bits of
    significand, and the subnormal spacing 2^-1074 at the bottom. *)
Definition exponent (q : Q) : Z := Z.max (ilog2 q - 52) (-1074).

Definition round_pos (q : Q) : Q :=
  (inject_Z (round_half_even (q * pow2 (- exponent q)))
   * pow2 (exponent q))%Q.

(** The double nearest to [q]. *)
Definition round64 (q : Q) : Q :=
  match (q ?= 0)%Q with
  | Eq => 0%Q
  | Gt => round_pos q
  | Lt => (- round_pos (- q))%Q
  end.

(** ** Auxiliary functions of the source *)

Definition generateVoicePrint (env : Env) (recordingUrl : string) : string :=
  bcrypt_hash env.

(** [Math.random() * 0.4 + 0.6]: the literals are the doubles nearest to
    4/10 and 6/10, and the product and the sum are rounded. *)
Definition verifyVoicePrint (env : Env) (recordingUrl storedPrint : string)
  : Q :=
  round64 (round64 (math_random env * round64 (4 # 10)) + round64 (6 # 10)).

Definition calculateRiskScore (env : Env) (transactionType : string)
    (amount : JsNumber) : Z :=
  let score := 0 in
  let score := if js_gt amount 5000 then score + 30 else score in
  let score := if js_gt amount 10000 then score + 20 else score in
  let score :=
    if String.eqb transactionType "INTERNATIONAL" then score + 25 else score in
  let score :=
    if String.eqb transactionType "CRYPTO" then score + 35 else score in
  let hour := getHours env in
  let score := if (hour <? 6) || (hour >? 22) then score + 15 else score in
  Z.min score 100.

(** ** TwiML responses *)

(** The sentences the handlers have Polly.Miguel say (voice and language
    are the same in every [twiml.say]). *)
Inductive Prompt :=
| VerifyGreeting
    (* 'Sistema de verificación Redessip Perú. Por seguridad, necesitamos
       verificar su identidad.' *)
| SayChallenge (challenge : Z)
    (* `Por favor, después del tono, diga: Mi código de verificación es
       ${challenge}` *)
| ProfileCreated (confirmationCode : Z)
    (* `Perfil creado exitosamente. Su código de confirmación es: ...` *)
| ThanksEnrollment
    (* 'Gracias por confiar en Redessip Perú. Su voz está ahora protegida.' *)
| EnrollmentProblem
    (* 'Hubo un problema al procesar su enrollment. Por favor, intente más
       tarde.' *)
| VerificationOk
    (* 'Verificación exitosa. Su transacción ha sido autorizada.' *)
| VerificationRejected
    (* 'No pudimos verificar su identidad. Por seguridad, la transacción ha
       sido bloqueada.' *)
| AccountBlocked
    (* 'Su cuenta ha sido bloqueada temporalmente. Contacte a soporte.' *)
| SystemErrorPrompt
    (* 'Error en el sistema. Por favor, intente más tarde.' *).

Inductive Verb :=
| Say (p : Prompt)
| RecordVerb (maxLength : Z) (action : string)
| Hangup.

(** ** Handlers as state transformers that may throw

    A handler runs on the world and on the TwiML document it is building.
    A thrown exception ([None]) keeps every change made before it: what was
    written to a store stays written, what was said stays in the document. *)
Record Ctx := mkCtx {
  world : World;
  twiml : list Verb
}.

Definition M (A : Type) : Type := Ctx -> option A * Ctx.

#[export] Instance M_ret : MRet M := fun A a c => (Some a, c).

#[export] Instance M_bind : MBind M := fun A B f m c =>
  match m c with
  | (Some a, c') => f a c'
  | (None, c') => (None, c')
  end.

Definition throw {A : Type} : M A := fun c => (None, c).

(** [try { body } catch (error) { handler }] *)
Definition try_catch {A : Type} (body handler : M A) : M A := fun c =>
  match body c with
  | (Some a, c') => (Some a, c')
  | (None, c') => handler c'
  end.

(** Reading a property of [null] or [undefined] throws a TypeError. *)
Definition property_of {A : Type} (o : option A) : M A :=
  match o with
  | Some a => mret a
  | None => throw
  end.

Definition get_world : M World := fun c => (Some (world c), c).

Definition modify_world (f : World -> World) : M unit := fun c =>
  (Some tt, mkCtx (f (world c)) (twiml c)).

Definition emit (e : Effect) : M unit :=
  modify_world (fun w =>
    mkWorld (redis w) (profiles w) (auditLogs w) (history w ++ [e])).

Definition set_redis (r : Redis) (w : World) : World :=
  mkWorld r (profiles w) (auditLogs w) (history w).

Definition set_profiles (ps : list VoiceProfile.t) (w : World) : World :=
  mkWorld (redis w) ps (auditLogs w) (history w).

Definition set_auditLogs (ls : list AuditLog.t) (w : World) : World :=
  mkWorld (redis w) (profiles w) ls (history w).

(** [twiml.say], [twiml.record], [twiml.hangup] *)
Definition twiml_add (v : Verb) : M unit := fun c =>
  (Some tt, mkCtx (world c) (twiml c ++ [v])).

Definition say (p : Prompt) : M unit := twiml_add (Say p).

(** *** Twilio *)

Definition calls_create (env : Env) (url to : string) : M string :=
  emit (CallsCreate url to (call_result env));;
  property_of (call_result env).

Definition messages_create (env : Env) (to body : string) : M unit :=
  emit (MessagesCreate to body (sms_ok env));;
  if sms_ok env then mret tt else throw.

(** *** Redis *)

(** [JSON.parse(await redis.get(`session:${sessionId}`))]: the stored
    object, or [null] when the key is absent or expired. *)
Definition redis_get_session (env : Env) (sessionId : string)
  : M (option Session.t) :=
  emit (RedisGet ("session:" ++ sessionId));;
  w ← get_world;
  mret (live (now env) (session (redis w)) sessionId).

Definition redis_setex_session (env : Env) (sessionId : string) (ttl : Z)
    (s : Session.t) : M unit :=
  emit (RedisSetex ("session:" ++ sessionId) ttl);;
  modify_world (fun w =>
    let r := redis w in
    set_redis (mkRedis (setex (now env) sessionId ttl s (session r))
                       (confirm r) (challenge r) (blocked r)) w).

Definition redis_setex_confirm (env : Env) (phoneNumber : string) (ttl : Z)
    (code : Z) : M unit :=
  emit (RedisSetex ("confirm:" ++ phoneNumber) ttl);;
  modify_world (fun w =>
    let r := redis w in
    set_redis (mkRedis (session r)
                       (setex (now env) phoneNumber ttl code (confirm r))
                       (challenge r) (blocked r)) w).

Definition redis_setex_challenge (env : Env) (sessionId : string) (ttl : Z)
    (code : Z) : M unit :=
  emit (RedisSetex ("challenge:" ++ sessionId) ttl);;
  modify_world (fun w =>
    let r := redis w in
    set_redis (mkRedis (session r) (confirm r)
                       (setex (now env) sessionId ttl code (challenge r))
                       (blocked r)) w).

Definition redis_setex_blocked (env : Env) (phoneNumber : string) (ttl : Z)
    (v : string) : M unit :=
  emit (RedisSetex ("blocked:" ++ phoneNumber) ttl);;
  modify_world (fun w =>
    let r := redis w in
    set_redis (mkRedis (session r) (confirm r) (challenge r)
                       (setex (now env) phoneNumber ttl v (blocked r))) w).

(** *** MongoDB *)

(** [VoiceProfile.findOne({ phoneNumber })]: a document of the collection
    with that phone number, with its position, or [null].  The query has no
    sort; the collection is kept in the order of insertion and the earliest
    match is taken, which is what MongoDB does on a collection from which
    nothing is deleted.  Which match is taken matters only when a number
    has several profiles. *)
Definition VoiceProfile_findOne (phoneNumber : string)
  : M (option (nat * VoiceProfile.t)) :=
  emit (ProfileFindOne phoneNumber);;
  w ← get_world;
  mret (list_find (fun p => VoiceProfile.phoneNumber p = phoneNumber)
                  (profiles w)).

(** The [required] validators of the schema: a required string may not be
    empty. *)
Definition required_ok (p : VoiceProfile.t) : bool :=
  negb (String.eqb (VoiceProfile.userId p) "")
  && negb (String.eqb (VoiceProfile.phoneNumber p) "")
  && negb (String.eqb (VoiceProfile.voicePrint p) "").

(** The unique index is on [userId], and on nothing else. *)
Definition userId_taken (u : string) (ps : list VoiceProfile.t) : bool :=
  existsb (fun q => String.eqb (VoiceProfile.userId q) u) ps.

(** [profile.save()] of a document made with [new VoiceProfile(...)]. *)
Definition VoiceProfile_insert (p : VoiceProfile.t) : M unit :=
  w ← get_world;
  if required_ok p && negb (userId_taken (VoiceProfile.userId p) (profiles w))
  then
    emit (ProfileSave (VoiceProfile.userId p) true);;
    modify_world (fun w => set_profiles (profiles w ++ [p]) w)
  else
    emit (ProfileSave (VoiceProfile.userId p) false);;
    throw.

(** [profile.save()] of the document that [findOne] returned at position
    [i]: the stored document is replaced by the modified one. *)
Definition VoiceProfile_update (i : nat) (p : VoiceProfile.t) : M unit :=
  emit (ProfileSave (VoiceProfile.userId p) true);;
  modify_world (fun w => set_profiles (<[i := p]> (profiles w)) w).

(** [new AuditLog({...}).save()] *)
Definition AuditLog_save (a : AuditLog.t) : M unit :=
  emit (AuditSave (AuditLog.action a));;
  modify_world (fun w => set_auditLogs (auditLogs w ++ [a]) w).

(** ** POST /biometric/initiate *)

(** The JSON bodies of the three answers. *)
Inductive InitiateResponse :=
| EnrollmentStarted (sessionId : string)
    (* success: true, message: 'Proceso de enrollment iniciado' *)
| VerificationStarted (sessionId : string) (riskLevel : string)
    (* success: true, message: 'Verificación biométrica iniciada' *)
| SystemError500
    (* status 500, error: 'Error en el sistema' *).

(** [riskScore > 70 ? 'HIGH' : riskScore > 40 ? 'MEDIUM' : 'LOW'] *)
Definition riskLevel (riskScore : Z) : string :=
  if riskScore >? 70 then "HIGH" else if riskScore >? 40 then "MEDIUM" else "LOW".

Definition initiate (env : Env) (phoneNumber transactionType : string)
    (amount : JsNumber) : M InitiateResponse :=
  try_catch
    (let sessionId := uuid env in
     profile ← VoiceProfile_findOne phoneNumber;
     match profile with
     | None =>
         callSid ← calls_create env
           ("https://api.redessip.pe/biometric/enrollment/" ++ sessionId)
           phoneNumber;
         redis_setex_session env sessionId 3600
           (Session.mk phoneNumber callSid ENROLLMENT None None None
                       (now env));;
         mret (EnrollmentStarted sessionId)
     | Some _ =>
         let riskScore := calculateRiskScore env transactionType amount in
         callSid ← calls_create env
           ("https://api.redessip.pe/biometric/verify/" ++ sessionId)
           phoneNumber;
         redis_setex_session env sessionId 3600
           (Session.mk phoneNumber callSid VERIFICATION (Some riskScore)
                       (Some transactionType) (Some amount) (now env));;
         mret (VerificationStarted sessionId (riskLevel riskScore))
     end)
    (mret SystemError500).

(** ** POST /biometric/verify/:sessionId *)

Definition verify (env : Env) (sessionId : string) : M unit :=
  say VerifyGreeting;;
  let challenge :=
    Qfloor (round64 (1000 + round64 (math_random env * 9000))) in
  redis_setex_challenge env sessionId 120 challenge;;
  say (SayChallenge challenge);;
  twiml_add (RecordVerb 8 ("/biometric/process-verification/" ++ sessionId)).

(** ** POST /biometric/process-enrollment/:sessionId *)

(** [req.body.FromCarrier || 'Unknown'] *)
Definition carrier_or_unknown (FromCarrier : option string) : string :=
  match FromCarrier with
  | Some c => if String.eqb c "" then "Unknown" else c
  | None => "Unknown"
  end.

Definition processEnrollment (env : Env) (sessionId recordingUrl : string)
    (From FromCarrier : option string) : M unit :=
  try_catch
    (sessionData ← redis_get_session env sessionId;
     let voicePrint := generateVoicePrint env recordingUrl in
     sessionData ← property_of sessionData;
     let phoneNumber := Session.phoneNumber sessionData in
     VoiceProfile_insert
       (VoiceProfile.mk (uuid env) phoneNumber voicePrint (now env) None 0
                        MEDIUM From None
                        (Some (carrier_or_unknown FromCarrier)));;
     let confirmationCode :=
       Qfloor (round64 (100000 + round64 (math_random env * 900000))) in
     redis_setex_confirm env phoneNumber 300 confirmationCode;;
     say (ProfileCreated confirmationCode);;
     say ThanksEnrollment;;
     AuditLog_save
       (AuditLog.mk sessionId phoneNumber "ENROLLMENT_SUCCESS" "SUCCESS"
                    (now env) (ip env) None))
    (say EnrollmentProblem);;
  twiml_add Hangup.

(** ** POST /biometric/process-verification/:sessionId *)

(** [profile.lastVerification = new Date(); profile.verificationAttempts = 0] *)
Definition verified (env : Env) (p : VoiceProfile.t) : VoiceProfile.t :=
  VoiceProfile.mk (VoiceProfile.userId p) (VoiceProfile.phoneNumber p)
    (VoiceProfile.voicePrint p) (VoiceProfile.enrollmentDate p)
    (Some (now env)) 0
    (VoiceProfile.securityLevel p) (VoiceProfile.deviceInfo p)
    (VoiceProfile.location p) (VoiceProfile.carrier p).

(** [profile.verificationAttempts += 1] *)
Definition failed (p : VoiceProfile.t) : VoiceProfile.t :=
  VoiceProfile.mk (VoiceProfile.userId p) (VoiceProfile.phoneNumber p)
    (VoiceProfile.voicePrint p) (VoiceProfile.enrollmentDate p)
    (VoiceProfile.lastVerification p) (VoiceProfile.verificationAttempts p + 1)
    (VoiceProfile.securityLevel p) (VoiceProfile.deviceInfo p)
    (VoiceProfile.location p) (VoiceProfile.carrier p).

(** [verificationScore > 0.85].  The double written [0.85] lies just below
    85/100 and no double lies between the two, so the test on doubles is the
    test against 85/100. *)
Definition above_threshold (verificationScore : Q) : bool :=
  negb (Qle_bool verificationScore (85 # 100)).

Definition processVerification (env : Env) (sessionId recordingUrl : string)
  : M unit :=
  try_catch
    (sessionData ← redis_get_session env sessionId;
     sessionData ← property_of sessionData;
     let phoneNumber := Session.phoneNumber sessionData in
     found ← VoiceProfile_findOne phoneNumber;
     '(i, profile) ← property_of found;
     let verificationScore :=
       verifyVoicePrint env recordingUrl (VoiceProfile.voicePrint profile) in
     if above_threshold verificationScore then
       let profile := verified env profile in
       VoiceProfile_update i profile;;
       say VerificationOk;;
       messages_create env phoneNumber
         ("Redessip Perú: Transacción autorizada exitosamente. ID: "
          ++ String.substring 0 8 sessionId);;
       AuditLog_save
         (AuditLog.mk sessionId phoneNumber "VERIFICATION_SUCCESS" "SUCCESS"
                      (now env) None (Session.riskScore sessionData))
     else
       let profile := failed profile in
       VoiceProfile_update i profile;;
       say VerificationRejected;;
       if VoiceProfile.verificationAttempts profile >=? 3 then
         redis_setex_blocked env phoneNumber 3600 "true";;
         say AccountBlocked
       else mret tt)
    (say SystemErrorPrompt);;
  twiml_add Hangup.

(** ** Running a handler on a world *)

Definition run_initiate (env : Env) (phoneNumber transactionType : string)
    (amount : JsNumber) (w : World) : option InitiateResponse * World :=
  let '(r, c) := initiate env phoneNumber transactionType amount (mkCtx w [])
  in (r, world c).

(** The TwiML document sent back, and the world left behind. *)
Definition run_twiml (h : M unit) (w : World) : list Verb * World :=
  let '(_, c) := h (mkCtx w []) in (twiml c, world c).

(** ** Observations on a run *)

(** The collaborator calls made between two worlds of one run. *)
Definition new_effects (w w' : World) : list Effect :=
  drop (length (history w)) (history w').

Definition is_setex (e : Effect) : bool :=
  match e with RedisSetex _ _ => true | _ => false end.

Definition is_audit (e : Effect) : bool :=
  match e with AuditSave _ => true | _ => false end.

(** Does the run write the lockout record of [phoneNumber]? *)
Definition sets_lockout (phoneNumber : string) (es : list Effect) : bool :=
  existsb (fun e =>
             match e with
             | RedisSetex key _ => String.eqb key ("blocked:" ++ phoneNumber)
             | _ => false
             end) es.

(** The audit events a run appends to the AuditLog collection. *)
Definition audit_events (w w' : World) : list AuditLog.t :=
  drop (length (auditLogs w)) (auditLogs w').

(** [isLocked]: the lockout record of the phone number is live. *)
Definition isLocked (env : Env) (w : World) (phoneNumber : string) : bool :=
  match live (now env) (blocked (redis w)) phoneNumber with
  | Some _ => true
  | None => false
  end.

(** The failure count stored for the first profile of a phone number. *)
Definition failureCount (w : World) (phoneNumber : string) : option Z :=
  match list_find (fun p => VoiceProfile.phoneNumber p = phoneNumber)
                  (profiles w) with
  | Some (_, p) => Some (VoiceProfile.verificationAttempts p)
  | None => None
  end.

(** The terminal outcome that a process-verification response tells the
    caller: the handler has no return value other than what it has said. *)
Inductive Outcome := SUCCESS | FAILURE | LOCKED_OUT | ERROR.

Definition said (p : Prompt) (response : list Verb) : bool :=
  existsb (fun v =>
             match v, p with
             | Say VerificationOk, VerificationOk => true
             | Say VerificationRejected, VerificationRejected => true
             | Say AccountBlocked, AccountBlocked => true
             | Say SystemErrorPrompt, SystemErrorPrompt => true
             | _, _ => false
             end) response.

Definition outcome (response : list Verb) : Outcome :=
  if said SystemErrorPrompt response then ERROR
  else if said AccountBlocked response then LOCKED_OUT
  else if said VerificationRejected response then FAILURE
  else if said VerificationOk response then SUCCESS
  else ERROR.

(** The world with another content under the [challenge:] keys. *)
Definition with_challenge (c : gmap string (Z * Z)) (w : World) : World :=
  let r := redis w in
  set_redis (mkRedis (session r) (confirm r) c (blocked r)) w.

(** Equal numbers, whatever fraction represents them. *)
Definition js_eq (a b : JsNumber) : Prop := js_le a b /\ js_le b a.

(** The phone numbers of a collection, and its user ids. *)
Definition phoneNumbers (ps : list VoiceProfile.t) : list string :=
  VoiceProfile.phoneNumber <$> ps.

Definition userIds (ps : list VoiceProfile.t) : list string :=
  VoiceProfile.userId <$> ps.

(** ** Worlds and requests used as examples *)

Definition example_phone : string := "+51999888777".

Definition no_redis : Redis := mkRedis ∅ ∅ ∅ ∅.

Definition fresh_world : World := mkWorld no_redis [] [] [].

(** 1 January 1970, 12:00 UTC, as seen from UTC. *)
Definition noon : Z := 43200000.

Definition request (t : Z) (id : string) (random : Q) (call : option string)
  : Env :=
  mkEnv t 0 id random "$2a$10$N9qo8uLOickgx2ZMRZoMye" call true None.

(** Requests made at five in the morning and at noon. *)
Definition five_am : Env := request (5 * 3600000) "a" (1 # 2) None.

Definition at_noon : Env := request noon "a" (1 # 2) None.

(** A request made at two in the morning. *)
Definition two_am : Env := request (2 * 3600000) "a" (1 # 2) None.

Definition example_profile (attempts : Z) : VoiceProfile.t :=
  VoiceProfile.mk "u-1" example_phone "$2a$10$N9qo8uLOickgx2ZMRZoMye" noon
                  None attempts MEDIUM (Some example_phone) None
                  (Some "Unknown").

Definition example_session : Session.t :=
  Session.mk example_phone "CA2" VERIFICATION (Some 0) (Some "TRANSFER")
             (Some (Num 5000)) noon.

(** An enrolled number with a verification session open. *)
Definition enrolled_world (attempts : Z) : World :=
  mkWorld (mkRedis {[ "S2" := (example_session, noon + 3600000) ]} ∅ ∅ ∅)
          [example_profile attempts] [] [].

(** A number that is not enrolled, with its enrollment session open. *)
Definition enrolling_world : World :=
  mkWorld (mkRedis {[ "S1" := (Session.mk example_phone "CA1" ENROLLMENT None
                                          None None noon, noon + 3600000) ]}
                   ∅ ∅ ∅)
          [] [] [].

(** A recording that the matcher scores 0.6 + 0.4 * 0.5 = 0.8, and one that
    it scores 0.6 + 0.4 * 0.875 = 0.95, received [dt] milliseconds after
    noon. *)
Definition failing_request (dt : Z) : Env :=
  request (noon + dt) "r" (1 # 2) (Some "CA3").

Definition passing_request (dt : Z) : Env :=
  request (noon + dt) "r" (7 # 8) (Some "CA3").

Definition example_recording : string := "https://api.twilio.com/rec/RE1".

(** Three failed verifications in a row of a profile that counts none. *)
Definition after_failure_1 : World :=
  snd (run_twiml (processVerification (failing_request 1000) "S2"
                                      example_recording)
                 (enrolled_world 0)).

Definition after_failure_2 : World :=
  snd (run_twiml (processVerification (failing_request 2000) "S2"
                                      example_recording)
                 after_failure_1).

Definition after_failure_3 : World :=
  snd (run_twiml (processVerification (failing_request 3000) "S2"
                                      example_recording)
                 after_failure_2).

(** The world after the third failure: the profile counts 3 failures and
    the lockout record of the number is live for an hour. *)
Definition locked_world : World := after_failure_3.

(** A fourth failure, on the session that is still open. *)
Definition after_fourth_failure : World :=
  snd (run_twiml (processVerification (failing_request 4000) "S2"
                                      example_recording)
                 locked_world).

(** An enrollment completed, and the same callback delivered again. *)
Definition after_first_enrollment : World :=
  snd (run_twiml (processEnrollment (request (noon + 1000) "u-1" (1 # 2) None)
                                    "S1" example_recording
                                    (Some example_phone) None)
                 enrolling_world).

Definition replayed_enrollment : list Verb * World :=
  run_twiml (processEnrollment (request (noon + 2000) "u-2" (1 # 2) None)
                               "S1" example_recording
                               (Some example_phone) None)
            after_first_enrollment.

(** [initiate] for the enrolled number, TRANSFER of 5000, at noon. *)
Definition transfer_5000_at_noon : option InitiateResponse * World :=
  run_initiate (request noon "S2" (1 # 2) (Some "CA2")) example_phone
               "TRANSFER" (Num 5000)
               (mkWorld no_redis [example_profile 0] [] []).

(** [initiate] for the locked number. *)
Definition initiate_while_locked : option InitiateResponse * World :=
  run_initiate (request (noon + 60000) "S3" (1 # 2) (Some "CA3"))
               example_phone "TRANSFER" (Num 100) locked_world.

(** A failed verification that does not lock (count 0 to 1) and one that
    does (count 2 to 3). *)
Definition failed_verification : list Verb * World :=
  run_twiml (processVerification (failing_request 1000) "S2"
                                 example_recording)
            (enrolled_world 0).

Definition locking_verification : list Verb * World :=
  run_twiml (processVerification (failing_request 1000) "S2"
                                 example_recording)
            (enrolled_world 2).

(** [initiate] for an enrolled number when Twilio rejects the call. *)
Definition rejected_call : Env := request noon "S4" (1 # 2) None.

(** ** GET /biometric/stats *)

(** The two counts of the answer; [company], [developer], [successRate]
    and [avgResponseTime] are constants of the source. *)
Record Stats := mkStats {
  totalProfiles : nat;
  todayVerifications : nat
}.

(** [new Date().setHours(0, 0, 0, 0)]: the instant at which the local day
    of the request began (the offset to UTC taken as constant over the
    day). *)
Definition start_of_day (env : Env) : Z :=
  now env - (now env + local_offset env) mod 86400000.

(** [VoiceProfile.countDocuments()] and
    [AuditLog.countDocuments({ action: 'VERIFICATION_SUCCESS',
                              timestamp: { $gte: ... } })].
    Both are reads: the world is left as it is. *)
Definition stats (env : Env) (w : World) : Stats :=
  mkStats
    (length (profiles w))
    (length (filter (fun a => AuditLog.action a = "VERIFICATION_SUCCESS"
                              /\ start_of_day env <= AuditLog.timestamp a)
                    (auditLogs w))).

(** ** Requests, one after the other *)

Inductive Request :=
| ReqInitiate (env : Env) (phoneNumber transactionType : string)
    (amount : JsNumber)
| ReqVerify (env : Env) (sessionId : string)
| ReqProcessEnrollment (env : Env) (sessionId recordingUrl : string)
    (From FromCarrier : option string)
| ReqProcessVerification (env : Env) (sessionId recordingUrl : string).

(** The world that a request leaves. *)
Definition serve (r : Request) (w : World) : World :=
  match r with
  | ReqInitiate env ph ty amt => snd (run_initiate env ph ty amt w)
  | ReqVerify env sid => snd (run_twiml (verify env sid) w)
  | ReqProcessEnrollment env sid url From FromCarrier =>
      snd (run_twiml (processEnrollment env sid url From FromCarrier) w)
  | ReqProcessVerification env sid url =>
      snd (run_twiml (processVerification env sid url) w)
  end.

Definition serve_all (rs : list Request) (w : World) : World :=
  foldl (fun w r => serve r w) w rs.

(** ** What is looked at in a world *)

(** The document that process-enrollment stores. *)
Definition new_profile (env : Env) (phoneNumber : string)
    (From FromCarrier : option string) : VoiceProfile.t :=
  VoiceProfile.mk (uuid env) phoneNumber (bcrypt_hash env) (now env) None 0
                  MEDIUM From None (Some (carrier_or_unknown FromCarrier)).

(** [Math.floor(100000 + Math.random() * 900000)] and
    [Math.floor(1000 + Math.random() * 9000)] *)
Definition confirmationCode (env : Env) : Z :=
  Qfloor (round64 (100000 + round64 (math_random env * 900000))).

Definition challengeCode (env : Env) : Z :=
  Qfloor (round64 (1000 + round64 (math_random env * 9000))).

(** What of a profile no handler is meant to change. *)
Definition identity (p : VoiceProfile.t) : string * string * string * Z :=
  (VoiceProfile.userId p, VoiceProfile.phoneNumber p,
   VoiceProfile.voicePrint p, VoiceProfile.enrollmentDate p).

(** Nothing is taken away between [w] and [w']: the audit log and the
    history are continued, and the profiles of [w] are still there, in
    their places, with their identity. *)
Definition continues (w w' : World) : Prop :=
  auditLogs w `prefix_of` auditLogs w'
  /\ history w `prefix_of` history w'
  /\ (identity <$> profiles w) `prefix_of` (identity <$> profiles w').

Definition profile_ok (p : VoiceProfile.t) : Prop :=
  required_ok p = true /\ 0 <= VoiceProfile.verificationAttempts p.

Definition audit_ok (a : AuditLog.t) : Prop :=
  AuditLog.result a = "SUCCESS"
  /\ (AuditLog.action a = "ENROLLMENT_SUCCESS"
      \/ AuditLog.action a = "VERIFICATION_SUCCESS").

(** An ENROLLMENT session carries no risk score; a VERIFICATION session
    carries one between 0 and 100 and belongs to an enrolled number. *)
Definition session_ok (ps : list VoiceProfile.t) (s : Session.t) : Prop :=
  match Session.type s with
  | ENROLLMENT => Session.riskScore s = None
  | VERIFICATION =>
      (exists r, Session.riskScore s = Some r /\ 0 <= r <= 100)
      /\ Session.phoneNumber s ∈ phoneNumbers ps
  end.

Record consistent (w : World) : Prop := mkConsistent {
  userIds_unique : NoDup (userIds (profiles w));
  profiles_ok : Forall profile_ok (profiles w);
  audit_log_ok : Forall audit_ok (auditLogs w);
  sessions_ok :
    map_Forall (fun _ (se : Session.t * Z) => session_ok (profiles w) se.1)
               (session (redis w));
  blocked_ok :
    map_Forall (fun ph (ve : string * Z) =>
                  ve.1 = "true" /\ ph ∈ phoneNumbers (profiles w))
               (blocked (redis w))
}.

(** [Math.random()] returns a double in [0, 1). *)
Definition random_ok (env : Env) : Prop :=
  (0 <= math_random env)%Q /\ (math_random env < 1)%Q
  /\ (round64 (math_random env) == math_random env)%Q.

(** The score of [verifyVoicePrint] as a function of the random number. *)
Definition matcher_score (r : Q) : Q :=
  round64 (round64 (r * round64 (4 # 10)) + round64 (6 # 10)).

(** The largest double below 1. *)
Definition largest_random : Q := (1 - (1 # 9007199254740992))%Q.

(** A recording received when [Math.random()] returns its largest value. *)
Definition top_request : Env :=
  request (noon + 1000) "r" largest_random (Some "CA3").

(** The local night of the risk score: before 6 h or after 22 h. *)
Definition night (env : Env) : bool :=
  (getHours env <? 6) || (getHours env >? 22).

(** A recording that matches, received while the SMS service is down. *)
Definition sms_down_request : Env :=
  mkEnv (noon + 1000) 0 "r" (7 # 8) "$2a$10$N9qo8uLOickgx2ZMRZoMye"
        (Some "CA3") false None.

(** A number enrolls and then asks for a CRYPTO transaction of 12000. *)
Definition example_requests : list Request :=
  [ReqInitiate (request noon "S1" (1 # 2) (Some "CA1")) example_phone
               "TRANSFER" (Num 5000);
   ReqProcessEnrollment (request (noon + 60000) "u-1" (1 # 2) None) "S1"
                        example_recording (Some example_phone) None;
   ReqInitiate (request (noon + 90000) "S2" (1 # 2) (Some "CA2"))
               example_phone "CRYPTO" (Num 12000)].

(** * Properties *)

(** ** The risk score *)

Lemma getHours_range (env : Env) : 0 <= getHours env < 24.
Proof. unfold getHours. apply Z.mod_pos_bound. lia. Qed.

Lemma js_gt_mono (a b : JsNumber) (n : Z) :
  js_le a b -> js_gt a n = true -> js_gt b n = true.
Proof.
  destruct a as [|x], b as [|y]; simpl; try easy.
  intros Hxy Hx. apply negb_true_iff in Hx. apply negb_true_iff.
  destruct (Qle_bool y (inject_Z n)) eqn:Hy; [|reflexivity].
  apply Qle_bool_iff in Hy.
  assert (Qle_bool x (inject_Z n) = true) as Hc
    by (apply Qle_bool_iff; eapply Qle_trans; eassumption).
  congruence.
Qed.

Lemma js_gt_eq (a b : JsNumber) (n : Z) :
  js_eq a b -> js_gt a n = js_gt b n.
Proof.
  intros [Hab Hba].
  destruct (js_gt a n) eqn:Ha, (js_gt b n) eqn:Hb; try reflexivity.
  - rewrite (js_gt_mono a b n Hab Ha) in Hb. discriminate.
  - rewrite (js_gt_mono b a n Hba Hb) in Ha. discriminate.
Qed.

(** The score as a function of the hour that the clock shows. *)
Lemma calculateRiskScore_unfold (env : Env) (ty : string) (a : JsNumber) :
  calculateRiskScore env ty a =
  Z.min ((if js_gt a 5000 then 30 else 0)
         + (if js_gt a 10000 then 20 else 0)
         + (if String.eqb ty "INTERNATIONAL" then 25 else 0)
         + (if String.eqb ty "CRYPTO" then 35 else 0)
         + (if (getHours env <? 6) || (getHours env >? 22) then 15 else 0))
        100.
Proof.
  unfold calculateRiskScore.
  destruct (js_gt a 5000), (js_gt a 10000), (String.eqb ty "INTERNATIONAL"),
    (String.eqb ty "CRYPTO"), ((getHours env <? 6) || (getHours env >? 22));
    reflexivity.
Qed.

(** C5, as amended.  [calculateRiskScore] takes the transaction type and
    the amount and reads the hour of the day from the clock when it runs,
    with [new Date().getHours()]; it changes no state.  Its result is
    determined by the type, the amount and that hour, and by nothing else:
    two evaluations on the same type and on amounts that are the same
    number, made at the same hour of the clock (on any two days, at any two
    minutes, in any two states of the stores), give the same integer. *)
Theorem calculateRiskScore_deterministic
    (env1 env2 : Env) (transactionType : string) (amount1 amount2 : JsNumber) :
  getHours env1 = getHours env2 ->
  js_eq amount1 amount2 ->
  calculateRiskScore env1 transactionType amount1
  = calculateRiskScore env2 transactionType amount2.
Proof.
  intros Hh Ha. rewrite !calculateRiskScore_unfold, Hh.
  rewrite (js_gt_eq _ _ 5000 Ha), (js_gt_eq _ _ 10000 Ha). reflexivity.
Qed.

(** Two requests a day and some minutes apart, with other uuids, random
    numbers and call results, and the amount written as two fractions. *)
Lemma calculateRiskScore_deterministic_witness :
  calculateRiskScore (request noon "a" (1 # 2) None) "CRYPTO" (Num 12000)
  = calculateRiskScore (request (noon + 86400000 + 1234567) "b" (7 # 8)
                                (Some "CA9"))
                       "CRYPTO" (Num (24000 # 2)).
Proof.
  apply calculateRiskScore_deterministic.
  - vm_compute. reflexivity.
  - split; simpl; unfold Qle; simpl; lia.
Defined.

(** C5, as stated, fails: the hour is not an argument.  The same call, on
    the type TRANSFER and the amount 100, returns 15 at five in the morning
    and 0 at noon, so that the result does depend on when it runs. *)
Lemma calculateRiskScore_differs_with_the_clock :
  calculateRiskScore five_am "TRANSFER" (Num 100) = 15
  /\ calculateRiskScore at_noon "TRANSFER" (Num 100) = 0
  /\ calculateRiskScore five_am "TRANSFER" (Num 100)
     <> calculateRiskScore at_noon "TRANSFER" (Num 100).
Proof. split_and!; [reflexivity | reflexivity | discriminate]. Qed.

(** C6. Whatever the transaction type, the amount and the hour, the score is
    an integer between 0 and 100; for a fixed type and hour it does not
    decrease when the amount grows; and an amount of 12000 in CRYPTO at two
    in the morning scores 100. *)
Theorem calculateRiskScore_range_monotone
    (env : Env) (transactionType : string) (amount1 amount2 : JsNumber) :
  js_le amount1 amount2 ->
  0 <= calculateRiskScore env transactionType amount1 <= 100
  /\ calculateRiskScore env transactionType amount1
     <= calculateRiskScore env transactionType amount2
  /\ (forall env2, getHours env2 = 2 ->
        calculateRiskScore env2 "CRYPTO" (Num 12000) = 100).
Proof.
  intros Hle. split; [|split].
  - rewrite calculateRiskScore_unfold.
    destruct (js_gt amount1 5000), (js_gt amount1 10000),
      (String.eqb transactionType "INTERNATIONAL"),
      (String.eqb transactionType "CRYPTO"),
      ((getHours env <? 6) || (getHours env >? 22)); lia.
  - rewrite !calculateRiskScore_unfold.
    pose proof (js_gt_mono _ _ 5000 Hle) as H5.
    pose proof (js_gt_mono _ _ 10000 Hle) as H10.
    destruct (js_gt amount1 5000), (js_gt amount1 10000);
      try rewrite (H5 eq_refl); try rewrite (H10 eq_refl);
      destruct (js_gt amount2 5000), (js_gt amount2 10000),
        (String.eqb transactionType "INTERNATIONAL"),
        (String.eqb transactionType "CRYPTO"),
        ((getHours env <? 6) || (getHours env >? 22)); lia.
  - intros env2 H2. rewrite calculateRiskScore_unfold, H2. reflexivity.
Qed.

Lemma calculateRiskScore_range_monotone_witness :
  0 <= calculateRiskScore two_am "INTERNATIONAL" (Num 5000) <= 100
  /\ calculateRiskScore two_am "INTERNATIONAL" (Num 5000)
     <= calculateRiskScore two_am "INTERNATIONAL" (Num (50001 # 10))
  /\ calculateRiskScore two_am "CRYPTO" (Num 12000) = 100.
Proof.
  destruct (calculateRiskScore_range_monotone two_am "INTERNATIONAL"
              (Num 5000) (Num (50001 # 10))) as (Hr & Hm & Hx).
  - simpl. unfold Qle. simpl. lia.
  - split; [exact Hr|]. split; [exact Hm|]. apply Hx. reflexivity.
Defined.

(** ** What each handler does, branch by branch *)

Ltac run_handler :=
  unfold run_twiml, run_initiate, processVerification, processEnrollment,
    initiate, verify, try_catch, redis_get_session, redis_setex_session,
    redis_setex_confirm, redis_setex_challenge, redis_setex_blocked,
    VoiceProfile_findOne, VoiceProfile_insert, VoiceProfile_update,
    AuditLog_save, calls_create, messages_create, say, twiml_add, emit,
    modify_world, get_world, property_of, throw, mbind, M_bind, mret, M_ret;
  cbn [world twiml redis profiles auditLogs history set_redis set_profiles
       set_auditLogs session confirm challenge blocked fst snd].

Ltac same_world :=
  unfold set_redis, set_profiles, set_auditLogs, with_challenge;
  cbn [world twiml redis profiles auditLogs history session confirm
       challenge blocked fst snd];
  rewrite <- ?(assoc_L (++)); reflexivity.

Lemma new_effects_app (w w' : World) (es : list Effect) :
  history w' = (history w ++ es)%list -> new_effects w w' = es.
Proof. unfold new_effects. intros ->. apply drop_app_length. Qed.

Lemma audit_events_app (w w' : World) (ls : list AuditLog.t) :
  auditLogs w' = (auditLogs w ++ ls)%list -> audit_events w w' = ls.
Proof. unfold audit_events. intros ->. apply drop_app_length. Qed.

(** Saving the document that [findOne] returned, with the same phone
    number, leaves it the first document of that number. *)
Lemma list_find_replace (phoneNumber : string) (ps : list VoiceProfile.t)
    (i : nat) (p q : VoiceProfile.t) :
  list_find (fun x => VoiceProfile.phoneNumber x = phoneNumber) ps
  = Some (i, p) ->
  VoiceProfile.phoneNumber q = phoneNumber ->
  list_find (fun x => VoiceProfile.phoneNumber x = phoneNumber) (<[i := q]> ps)
  = Some (i, q).
Proof.
  intros Hf Hq. apply list_find_Some in Hf as (Hi & _ & Hleast).
  apply list_find_insert_Some. right. left.
  split_and!; [done | done | by eapply lookup_lt_Some | done | done].
Qed.

Lemma processVerification_no_session (env : Env) (sid url : string)
    (w : World) :
  live (now env) (session (redis w)) sid = None ->
  run_twiml (processVerification env sid url) w
  = ([Say SystemErrorPrompt; Hangup],
     mkWorld (redis w) (profiles w) (auditLogs w)
             (history w ++ [RedisGet ("session:" ++ sid)])).
Proof. intros Hs. run_handler. rewrite Hs. cbn. same_world. Qed.

Lemma processVerification_no_profile (env : Env) (sid url : string)
    (w : World) (sd : Session.t) :
  live (now env) (session (redis w)) sid = Some sd ->
  list_find (fun q => VoiceProfile.phoneNumber q = Session.phoneNumber sd)
            (profiles w) = None ->
  run_twiml (processVerification env sid url) w
  = ([Say SystemErrorPrompt; Hangup],
     mkWorld (redis w) (profiles w) (auditLogs w)
             (history w ++ [RedisGet ("session:" ++ sid);
                            ProfileFindOne (Session.phoneNumber sd)])).
Proof.
  intros Hs Hf. run_handler. rewrite Hs. cbn. rewrite Hf. cbn. same_world.
Qed.

Lemma processVerification_failure (env : Env) (sid url : string) (w : World)
    (sd : Session.t) (i : nat) (p : VoiceProfile.t) :
  live (now env) (session (redis w)) sid = Some sd ->
  list_find (fun q => VoiceProfile.phoneNumber q = Session.phoneNumber sd)
            (profiles w) = Some (i, p) ->
  above_threshold (verifyVoicePrint env url (VoiceProfile.voicePrint p))
  = false ->
  run_twiml (processVerification env sid url) w
  = if VoiceProfile.verificationAttempts p + 1 >=? 3 then
      ([Say VerificationRejected; Say AccountBlocked; Hangup],
       mkWorld (mkRedis (session (redis w)) (confirm (redis w))
                        (challenge (redis w))
                        (setex (now env) (Session.phoneNumber sd) 3600 "true"
                               (blocked (redis w))))
               (<[i := failed p]> (profiles w)) (auditLogs w)
               (history w
                ++ [RedisGet ("session:" ++ sid);
                    ProfileFindOne (Session.phoneNumber sd);
                    ProfileSave (VoiceProfile.userId p) true;
                    RedisSetex ("blocked:" ++ Session.phoneNumber sd) 3600]))
    else
      ([Say VerificationRejected; Hangup],
       mkWorld (redis w) (<[i := failed p]> (profiles w)) (auditLogs w)
               (history w
                ++ [RedisGet ("session:" ++ sid);
                    ProfileFindOne (Session.phoneNumber sd);
                    ProfileSave (VoiceProfile.userId p) true])).
Proof.
  intros Hs Hf Ht. run_handler. rewrite Hs. cbn. rewrite Hf. cbn.
  rewrite Ht. cbn.
  destruct (VoiceProfile.verificationAttempts p + 1 >=? 3); cbn; same_world.
Qed.

Lemma processVerification_success (env : Env) (sid url : string) (w : World)
    (sd : Session.t) (i : nat) (p : VoiceProfile.t) :
  live (now env) (session (redis w)) sid = Some sd ->
  list_find (fun q => VoiceProfile.phoneNumber q = Session.phoneNumber sd)
            (profiles w) = Some (i, p) ->
  above_threshold (verifyVoicePrint env url (VoiceProfile.voicePrint p))
  = true ->
  let sms :=
    MessagesCreate (Session.phoneNumber sd)
      ("Redessip Perú: Transacción autorizada exitosamente. ID: "
       ++ String.substring 0 8 sid) (sms_ok env) in
  run_twiml (processVerification env sid url) w
  = if sms_ok env then
      ([Say VerificationOk; Hangup],
       mkWorld (redis w) (<[i := verified env p]> (profiles w))
               (auditLogs w
                ++ [AuditLog.mk sid (Session.phoneNumber sd)
                      "VERIFICATION_SUCCESS" "SUCCESS" (now env) None
                      (Session.riskScore sd)])
               (history w
                ++ [RedisGet ("session:" ++ sid);
                    ProfileFindOne (Session.phoneNumber sd);
                    ProfileSave (VoiceProfile.userId p) true;
                    sms; AuditSave "VERIFICATION_SUCCESS"]))
    else
      ([Say VerificationOk; Say SystemErrorPrompt; Hangup],
       mkWorld (redis w) (<[i := verified env p]> (profiles w)) (auditLogs w)
               (history w
                ++ [RedisGet ("session:" ++ sid);
                    ProfileFindOne (Session.phoneNumber sd);
                    ProfileSave (VoiceProfile.userId p) true; sms])).
Proof.
  intros Hs Hf Ht sms. subst sms. run_handler. rewrite Hs. cbn.
  rewrite Hf. cbn. rewrite Ht. cbn.
  destruct (sms_ok env); cbn; same_world.
Qed.

Lemma above_threshold_true (s : Q) :
  above_threshold s = true <-> (85 # 100 < s)%Q.
Proof.
  unfold above_threshold. rewrite negb_true_iff.
  split.
  - intros Hb. apply Qnot_le_lt. intros Hle.
    apply Qle_bool_iff in Hle. congruence.
  - intros Hlt. destruct (Qle_bool s (85 # 100)) eqn:Hb; [|reflexivity].
    apply Qle_bool_iff in Hb. exfalso. eapply Qlt_not_le; eassumption.
Qed.

Lemma above_threshold_false (s : Q) :
  above_threshold s = false <-> (s <= 85 # 100)%Q.
Proof.
  unfold above_threshold. rewrite negb_false_iff. apply Qle_bool_iff.
Qed.

Lemma live_setex {V : Type} (t : Z) (k : string) (ttl : Z) (v : V)
    (m : gmap string (V * Z)) :
  0 < ttl -> live t (setex t k ttl v m) k = Some v.
Proof.
  intros Httl. unfold live, setex. rewrite lookup_insert_eq.
  destruct (t <? t + ttl * 1000) eqn:Hlt; [reflexivity|].
  apply Z.ltb_ge in Hlt. lia.
Qed.

Lemma blocked_key_eqb (a b : string) :
  String.eqb ("blocked:" ++ a) ("blocked:" ++ b) = String.eqb a b.
Proof. reflexivity. Qed.

(** One failed verification: the count goes up by one, the lockout record
    is written when the new count is at least 3, nothing else changes in
    Redis and no audit event is written. *)
Lemma failure_step (env : Env) (sid url : string) (w : World)
    (sd : Session.t) (i : nat) (p : VoiceProfile.t) :
  live (now env) (session (redis w)) sid = Some sd ->
  list_find (fun q => VoiceProfile.phoneNumber q = Session.phoneNumber sd)
            (profiles w) = Some (i, p) ->
  above_threshold (verifyVoicePrint env url (VoiceProfile.voicePrint p))
  = false ->
  forall w', w' = snd (run_twiml (processVerification env sid url) w) ->
  profiles w' = <[i := failed p]> (profiles w)
  /\ session (redis w') = session (redis w)
  /\ auditLogs w' = auditLogs w
  /\ sets_lockout (Session.phoneNumber sd) (new_effects w w')
     = (VoiceProfile.verificationAttempts p + 1 >=? 3)
  /\ ((VoiceProfile.verificationAttempts p + 1 >=? 3) = true ->
      isLocked env w' (Session.phoneNumber sd) = true)
  /\ ((VoiceProfile.verificationAttempts p + 1 >=? 3) = false ->
      blocked (redis w') = blocked (redis w)).
Proof.
  intros Hs Hf Ht w' ->.
  rewrite (processVerification_failure env sid url w sd i p Hs Hf Ht).
  destruct (VoiceProfile.verificationAttempts p + 1 >=? 3) eqn:Hge;
    cbn [snd profiles redis session auditLogs blocked].
  - split_and!; try done.
    + erewrite new_effects_app by reflexivity. cbn.
      rewrite blocked_key_eqb, String.eqb_refl. reflexivity.
    + intros _. unfold isLocked. cbn [redis blocked].
      rewrite live_setex by lia. reflexivity.
  - split_and!; try done.
    erewrite new_effects_app by reflexivity. reflexivity.
Qed.

Lemma failureCount_replace (w w' : World) (phoneNumber : string) (i : nat)
    (p q : VoiceProfile.t) :
  list_find (fun x => VoiceProfile.phoneNumber x = phoneNumber) (profiles w)
  = Some (i, p) ->
  VoiceProfile.phoneNumber q = phoneNumber ->
  profiles w' = <[i := q]> (profiles w) ->
  failureCount w' phoneNumber = Some (VoiceProfile.verificationAttempts q).
Proof.
  intros Hf Hq Hp. unfold failureCount.
  rewrite Hp, (list_find_replace _ _ _ _ _ Hf Hq). reflexivity.
Qed.

Lemma list_find_phone (phoneNumber : string) (ps : list VoiceProfile.t)
    (i : nat) (p : VoiceProfile.t) :
  list_find (fun x => VoiceProfile.phoneNumber x = phoneNumber) ps
  = Some (i, p) ->
  VoiceProfile.phoneNumber p = phoneNumber.
Proof. intros Hf. by apply list_find_Some in Hf as (_ & Hp & _). Qed.

(** Which runs of process-verification write the lockout record. *)
Lemma sets_lockout_iff (env : Env) (sid url phoneNumber : string)
    (w : World) :
  sets_lockout phoneNumber
    (new_effects w (snd (run_twiml (processVerification env sid url) w)))
  = true
  <-> exists sd i p,
        live (now env) (session (redis w)) sid = Some sd
        /\ Session.phoneNumber sd = phoneNumber
        /\ list_find (fun q => VoiceProfile.phoneNumber q = phoneNumber)
                     (profiles w) = Some (i, p)
        /\ (verifyVoicePrint env url (VoiceProfile.voicePrint p)
            <= 85 # 100)%Q
        /\ 3 <= VoiceProfile.verificationAttempts p + 1.
Proof.
  destruct (live (now env) (session (redis w)) sid) as [sd|] eqn:Hs.
  2:{ rewrite (processVerification_no_session env sid url w Hs).
      erewrite new_effects_app by reflexivity. cbn.
      split; [discriminate|]. intros (? & ? & ? & ? & _). discriminate. }
  destruct (list_find
              (fun q => VoiceProfile.phoneNumber q = Session.phoneNumber sd)
              (profiles w)) as [[i p]|] eqn:Hf.
  2:{ rewrite (processVerification_no_profile env sid url w sd Hs Hf).
      erewrite new_effects_app by reflexivity. cbn.
      split; [discriminate|].
      intros (sd' & i & p & Hsd & Hph & Hf' & _).
      injection Hsd as <-. rewrite Hph in Hf. congruence. }
  destruct (above_threshold
              (verifyVoicePrint env url (VoiceProfile.voicePrint p)))
    eqn:Ht.
  - pose proof (processVerification_success env sid url w sd i p Hs Hf Ht)
      as Hrun. cbn zeta in Hrun. rewrite Hrun.
    apply above_threshold_true in Ht.
    assert (sets_lockout phoneNumber
              (new_effects w
                 (snd (if sms_ok env then _ else _))) = false) as ->.
    { destruct (sms_ok env); cbn [snd];
        erewrite new_effects_app by reflexivity; reflexivity. }
    split; [discriminate|].
    intros (sd' & i' & p' & Hsd & Hph & Hf' & Hle & _).
    injection Hsd as <-. rewrite Hph in Hf.
    assert (p' = p) as -> by congruence.
    exfalso. eapply Qlt_not_le; eassumption.
  - rewrite (processVerification_failure env sid url w sd i p Hs Hf Ht).
    destruct (VoiceProfile.verificationAttempts p + 1 >=? 3) eqn:Hge;
      cbn [snd]; erewrite new_effects_app by reflexivity; cbn.
    + rewrite orb_false_r, blocked_key_eqb, String.eqb_eq.
      apply above_threshold_false in Ht. apply Z.geb_le in Hge.
      split.
      * intros Hph. exists sd, i, p. rewrite <- Hph. split_and!; try done.
      * intros (sd' & _ & _ & Hsd & Hph & _). congruence.
    + split; [discriminate|].
      intros (sd' & i' & p' & Hsd & Hph & Hf' & _ & Hge').
      injection Hsd as <-. rewrite Hph in Hf.
      assert (p' = p) as -> by congruence.
      apply Z.geb_le in Hge'. congruence.
Qed.

(** Three failures in a row on a profile that counts none. *)
Lemma three_failures (env1 env2 env3 : Env)
    (s1 s2 s3 url1 url2 url3 phoneNumber : string) (w w1 w2 w3 : World)
    (sd1 sd2 sd3 : Session.t) (i : nat) (p : VoiceProfile.t) :
  w1 = snd (run_twiml (processVerification env1 s1 url1) w) ->
  w2 = snd (run_twiml (processVerification env2 s2 url2) w1) ->
  w3 = snd (run_twiml (processVerification env3 s3 url3) w2) ->
  list_find (fun q => VoiceProfile.phoneNumber q = phoneNumber) (profiles w)
  = Some (i, p) ->
  VoiceProfile.verificationAttempts p = 0 ->
  live (now env1) (session (redis w)) s1 = Some sd1 ->
  live (now env2) (session (redis w)) s2 = Some sd2 ->
  live (now env3) (session (redis w)) s3 = Some sd3 ->
  Session.phoneNumber sd1 = phoneNumber ->
  Session.phoneNumber sd2 = phoneNumber ->
  Session.phoneNumber sd3 = phoneNumber ->
  (verifyVoicePrint env1 url1 (VoiceProfile.voicePrint p) <= 85 # 100)%Q ->
  (verifyVoicePrint env2 url2 (VoiceProfile.voicePrint p) <= 85 # 100)%Q ->
  (verifyVoicePrint env3 url3 (VoiceProfile.voicePrint p) <= 85 # 100)%Q ->
  (failureCount w1 phoneNumber = Some 1
   /\ sets_lockout phoneNumber (new_effects w w1) = false)
  /\ (failureCount w2 phoneNumber = Some 2
      /\ sets_lockout phoneNumber (new_effects w1 w2) = false)
  /\ (failureCount w3 phoneNumber = Some 3
      /\ sets_lockout phoneNumber (new_effects w2 w3) = true
      /\ isLocked env3 w3 phoneNumber = true).
Proof.
  intros E1 E2 E3 Hf H0 Hs1 Hs2 Hs3 Hp1 Hp2 Hp3 Ht1 Ht2 Ht3.
  apply above_threshold_false in Ht1, Ht2, Ht3.
  pose proof (list_find_phone _ _ _ _ Hf) as Hpp.
  (* first call *)
  rewrite <- Hp1 in Hf.
  destruct (failure_step env1 s1 url1 w sd1 i p Hs1 Hf Ht1 w1 E1)
    as (P1 & S1 & _ & L1 & _ & _).
  rewrite Hp1 in Hf, L1.
  assert (F1 : list_find
                 (fun q => VoiceProfile.phoneNumber q = phoneNumber)
                 (profiles w1) = Some (i, failed p))
    by (rewrite P1; eapply list_find_replace; eauto).
  (* second call *)
  rewrite <- S1 in Hs2, Hs3. rewrite <- Hp2 in F1.
  destruct (failure_step env2 s2 url2 w1 sd2 i (failed p) Hs2 F1 Ht2 w2 E2)
    as (P2 & S2 & _ & L2 & _ & _).
  rewrite Hp2 in F1, L2.
  assert (F2 : list_find
                 (fun q => VoiceProfile.phoneNumber q = phoneNumber)
                 (profiles w2) = Some (i, failed (failed p)))
    by (rewrite P2; eapply list_find_replace; eauto).
  (* third call *)
  rewrite <- S2 in Hs3. rewrite <- Hp3 in F2.
  destruct (failure_step env3 s3 url3 w2 sd3 i (failed (failed p))
              Hs3 F2 Ht3 w3 E3)
    as (P3 & _ & _ & L3 & K3 & _).
  rewrite Hp3 in F2, L3, K3.
  cbn [failed VoiceProfile.verificationAttempts] in L1, L2, L3, K3.
  rewrite H0 in L1, L2, L3, K3.
  split_and!.
  - rewrite (failureCount_replace w w1 phoneNumber i p (failed p) Hf Hpp P1).
    cbn. by rewrite H0.
  - exact L1.
  - rewrite (failureCount_replace w1 w2 phoneNumber i (failed p)
               (failed (failed p)) F1 Hpp P2).
    cbn. by rewrite H0.
  - exact L2.
  - rewrite (failureCount_replace w2 w3 phoneNumber i (failed (failed p))
               (failed (failed (failed p))) F2 Hpp P3).
    cbn. by rewrite H0.
  - exact L3.
  - apply K3. reflexivity.
Qed.

(** ** Lockout *)

(** C2, as amended.  A run of process-verification writes the lockout
    record of a phone number exactly when it is a failed verification
    (score at most 0.85) of that number's profile whose count, once
    incremented, is at least 3: at 3 and at every later failure, never
    below.  Three failures in a row on a profile that counts none write it
    on the third call only, and leave the counts 1, 2 and 3. *)
Theorem lockout_written_iff_count_at_least_3
    (env1 env2 env3 : Env) (s1 s2 s3 url1 url2 url3 phoneNumber : string)
    (w : World) (sd1 sd2 sd3 : Session.t) (i : nat) (p : VoiceProfile.t) :
  list_find (fun q => VoiceProfile.phoneNumber q = phoneNumber) (profiles w)
  = Some (i, p) ->
  VoiceProfile.verificationAttempts p = 0 ->
  live (now env1) (session (redis w)) s1 = Some sd1 ->
  live (now env2) (session (redis w)) s2 = Some sd2 ->
  live (now env3) (session (redis w)) s3 = Some sd3 ->
  Session.phoneNumber sd1 = phoneNumber ->
  Session.phoneNumber sd2 = phoneNumber ->
  Session.phoneNumber sd3 = phoneNumber ->
  (verifyVoicePrint env1 url1 (VoiceProfile.voicePrint p) <= 85 # 100)%Q ->
  (verifyVoicePrint env2 url2 (VoiceProfile.voicePrint p) <= 85 # 100)%Q ->
  (verifyVoicePrint env3 url3 (VoiceProfile.voicePrint p) <= 85 # 100)%Q ->
  (forall env sid url phone w0,
     sets_lockout phone
       (new_effects w0 (snd (run_twiml (processVerification env sid url) w0)))
     = true
     <-> exists sd j q,
           live (now env) (session (redis w0)) sid = Some sd
           /\ Session.phoneNumber sd = phone
           /\ list_find (fun x => VoiceProfile.phoneNumber x = phone)
                        (profiles w0) = Some (j, q)
           /\ (verifyVoicePrint env url (VoiceProfile.voicePrint q)
               <= 85 # 100)%Q
           /\ 3 <= VoiceProfile.verificationAttempts q + 1)
  /\ forall w1 w2 w3,
       w1 = snd (run_twiml (processVerification env1 s1 url1) w) ->
       w2 = snd (run_twiml (processVerification env2 s2 url2) w1) ->
       w3 = snd (run_twiml (processVerification env3 s3 url3) w2) ->
       (failureCount w1 phoneNumber = Some 1
        /\ sets_lockout phoneNumber (new_effects w w1) = false)
       /\ (failureCount w2 phoneNumber = Some 2
           /\ sets_lockout phoneNumber (new_effects w1 w2) = false)
       /\ (failureCount w3 phoneNumber = Some 3
           /\ sets_lockout phoneNumber (new_effects w2 w3) = true
           /\ isLocked env3 w3 phoneNumber = true).
Proof.
  intros Hf H0 Hs1 Hs2 Hs3 Hp1 Hp2 Hp3 Ht1 Ht2 Ht3. split.
  - intros env sid url phone w0. apply sets_lockout_iff.
  - intros w1 w2 w3 E1 E2 E3.
    eapply (three_failures env1 env2 env3 s1 s2 s3 url1 url2 url3);
      eassumption.
Qed.

Lemma lockout_written_iff_count_at_least_3_witness :
  (failureCount after_failure_1 example_phone = Some 1
   /\ sets_lockout example_phone
        (new_effects (enrolled_world 0) after_failure_1) = false)
  /\ (failureCount after_failure_2 example_phone = Some 2
      /\ sets_lockout example_phone
           (new_effects after_failure_1 after_failure_2) = false)
  /\ (failureCount after_failure_3 example_phone = Some 3
      /\ sets_lockout example_phone
           (new_effects after_failure_2 after_failure_3) = true
      /\ isLocked (failing_request 3000) after_failure_3 example_phone
         = true).
Proof.
  refine (proj2 (lockout_written_iff_count_at_least_3
                   (failing_request 1000) (failing_request 2000)
                   (failing_request 3000) "S2" "S2" "S2"
                   example_recording example_recording example_recording
                   example_phone (enrolled_world 0)
                   example_session example_session example_session
                   0%nat (example_profile 0)
                   _ _ _ _ _ _ _ _ _ _ _)
                after_failure_1 after_failure_2 after_failure_3
                eq_refl eq_refl eq_refl);
    try reflexivity; vm_compute; discriminate.
Defined.

(** C2, as stated, fails: after the third failure in a row the profile
    counts 3 and the number is locked; a fourth failure makes the count 4
    and writes the lockout record again. *)
Lemma lockout_written_again_at_count_4 :
  failureCount locked_world example_phone = Some 3
  /\ isLocked (failing_request 4000) locked_world example_phone = true
  /\ failureCount after_fourth_failure example_phone = Some 4
  /\ sets_lockout example_phone
       (new_effects locked_world after_fourth_failure) = true
  /\ ~ (sets_lockout example_phone
          (new_effects locked_world after_fourth_failure) = true
        -> failureCount after_fourth_failure example_phone = Some 3).
Proof.
  split_and!; try (vm_compute; reflexivity).
  intros H. specialize (H ltac:(vm_compute; reflexivity)).
  vm_compute in H. discriminate.
Qed.

(** C8. A verification whose score is above 0.85 resets the failure count
    of the profile to 0, whatever it was, and sets its lastVerification to
    the time of the call; the rest of the profile is kept. *)
Theorem successful_verification_resets_failures
    (env : Env) (sid url : string) (w : World) (sd : Session.t) (i : nat)
    (p : VoiceProfile.t) :
  live (now env) (session (redis w)) sid = Some sd ->
  list_find (fun q => VoiceProfile.phoneNumber q = Session.phoneNumber sd)
            (profiles w) = Some (i, p) ->
  (85 # 100 < verifyVoicePrint env url (VoiceProfile.voicePrint p))%Q ->
  forall w', w' = snd (run_twiml (processVerification env sid url) w) ->
  failureCount w' (Session.phoneNumber sd) = Some 0
  /\ exists q,
       list_find (fun x => VoiceProfile.phoneNumber x = Session.phoneNumber sd)
                 (profiles w') = Some (i, q)
       /\ VoiceProfile.verificationAttempts q = 0
       /\ VoiceProfile.lastVerification q = Some (now env)
       /\ VoiceProfile.userId q = VoiceProfile.userId p
       /\ VoiceProfile.voicePrint q = VoiceProfile.voicePrint p.
Proof.
  intros Hs Hf Ht w' ->. apply above_threshold_true in Ht.
  pose proof (processVerification_success env sid url w sd i p Hs Hf Ht)
    as Hrun. cbn zeta in Hrun.
  pose proof (list_find_phone _ _ _ _ Hf) as Hpp.
  assert (profiles (snd (run_twiml (processVerification env sid url) w))
          = <[i := verified env p]> (profiles w)) as Hp.
  { rewrite Hrun. destruct (sms_ok env); reflexivity. }
  split.
  - rewrite (failureCount_replace w _ _ i p (verified env p) Hf Hpp Hp).
    reflexivity.
  - exists (verified env p). rewrite Hp. split_and!; try reflexivity.
    eapply list_find_replace; eauto.
Qed.

Lemma successful_verification_resets_failures_witness :
  failureCount (enrolled_world 2) example_phone = Some 2
  /\ failureCount
       (snd (run_twiml (processVerification (passing_request 1000) "S2"
                          example_recording) (enrolled_world 2)))
       example_phone = Some 0.
Proof.
  split; [reflexivity|].
  refine (proj1 (successful_verification_resets_failures
                   (passing_request 1000) "S2" example_recording
                   (enrolled_world 2) example_session 0%nat
                   (example_profile 2) _ _ _ _ eq_refl));
    vm_compute; reflexivity.
Defined.

(** ** Audit events of a verification *)

(** C4 fails on the code.  A verification scored 0.8 on a profile that
    counts no failure ends in FAILURE, and one on a profile that counts two
    ends in LOCKED_OUT; neither appends anything to the AuditLog collection
    nor calls [AuditLog.save]. *)
Lemma failed_verification_writes_no_audit_event :
  (outcome (fst failed_verification) = FAILURE
   /\ audit_events (enrolled_world 0) (snd failed_verification) = []
   /\ existsb is_audit (new_effects (enrolled_world 0)
                          (snd failed_verification)) = false)
  /\ (outcome (fst locking_verification) = LOCKED_OUT
      /\ audit_events (enrolled_world 2) (snd locking_verification) = []
      /\ existsb is_audit (new_effects (enrolled_world 2)
                             (snd locking_verification)) = false).
Proof. split_and!; vm_compute; reflexivity. Qed.

(** ** The challenge is not read *)

Lemma processVerification_with_challenge (env : Env) (sid url : string)
    (w : World) (c : gmap string (Z * Z)) :
  run_twiml (processVerification env sid url) (with_challenge c w)
  = (fst (run_twiml (processVerification env sid url) w),
     with_challenge c (snd (run_twiml (processVerification env sid url) w))).
Proof.
  run_handler. unfold with_challenge.
  cbn [redis session set_redis profiles].
  destruct (live (now env) (session (redis w)) sid) as [sd|]; cbn;
    [|same_world].
  destruct (list_find _ (profiles w)) as [[i p]|]; cbn; [|same_world].
  destruct (above_threshold _); cbn.
  - destruct (sms_ok env); cbn; same_world.
  - destruct (_ >=? 3); cbn; same_world.
Qed.

(** The world that the verify handler leaves: a challenge drawn from
    [Math.random()] under [challenge:<sessionId>], and nothing else. *)
Lemma verify_world (env : Env) (sid : string) (w : World) :
  snd (run_twiml (verify env sid) w)
  = with_challenge
      (setex (now env) sid 120 (challengeCode env)
             (challenge (redis w)))
      (mkWorld (redis w) (profiles w) (auditLogs w)
               (history w ++ [RedisSetex ("challenge:" ++ sid) 120])).
Proof. run_handler. same_world. Qed.

(** C10. Process-verification gives the same response, hence the same
    outcome, and leaves the same profiles, audit log, sessions and lockout
    records whatever is stored under the [challenge:] keys; the challenge
    content itself is passed through untouched.  In particular the outcome
    does not depend on the code that the verify handler drew for the
    session. *)
Theorem processVerification_ignores_challenge
    (env : Env) (sid url : string) (w : World) (c : gmap string (Z * Z)) :
  run_twiml (processVerification env sid url) (with_challenge c w)
  = (fst (run_twiml (processVerification env sid url) w),
     with_challenge c (snd (run_twiml (processVerification env sid url) w)))
  /\ outcome (fst (run_twiml (processVerification env sid url)
                             (with_challenge c w)))
     = outcome (fst (run_twiml (processVerification env sid url) w))
  /\ forall issued1 issued2 : Env,
       fst (run_twiml (processVerification env sid url)
                      (snd (run_twiml (verify issued1 sid) w)))
       = fst (run_twiml (processVerification env sid url)
                        (snd (run_twiml (verify issued2 sid) w))).
Proof.
  split_and!.
  - apply processVerification_with_challenge.
  - rewrite processVerification_with_challenge. reflexivity.
  - intros issued1 issued2.
    rewrite !verify_world, !processVerification_with_challenge.
    reflexivity.
Qed.

(** ** Initiate *)

Lemma initiate_known (env : Env) (ph ty : string) (amt : JsNumber)
    (w : World) (i : nat) (p : VoiceProfile.t) :
  list_find (fun q => VoiceProfile.phoneNumber q = ph) (profiles w)
  = Some (i, p) ->
  run_initiate env ph ty amt w
  = let url := "https://api.redessip.pe/biometric/verify/" ++ uuid env in
    match call_result env with
    | Some callSid =>
        (Some (VerificationStarted (uuid env)
                 (riskLevel (calculateRiskScore env ty amt))),
         mkWorld
           (mkRedis
              (setex (now env) (uuid env) 3600
                 (Session.mk ph callSid VERIFICATION
                    (Some (calculateRiskScore env ty amt)) (Some ty)
                    (Some amt) (now env))
                 (session (redis w)))
              (confirm (redis w)) (challenge (redis w)) (blocked (redis w)))
           (profiles w) (auditLogs w)
           (history w ++ [ProfileFindOne ph;
                          CallsCreate url ph (Some callSid);
                          RedisSetex ("session:" ++ uuid env) 3600]))
    | None =>
        (Some SystemError500,
         mkWorld (redis w) (profiles w) (auditLogs w)
                 (history w ++ [ProfileFindOne ph; CallsCreate url ph None]))
    end.
Proof.
  intros Hf. run_handler. rewrite Hf. cbn.
  destruct (call_result env); cbn; f_equal; same_world.
Qed.

Lemma initiate_unknown (env : Env) (ph ty : string) (amt : JsNumber)
    (w : World) :
  list_find (fun q => VoiceProfile.phoneNumber q = ph) (profiles w) = None ->
  run_initiate env ph ty amt w
  = let url := "https://api.redessip.pe/biometric/enrollment/" ++ uuid env in
    match call_result env with
    | Some callSid =>
        (Some (EnrollmentStarted (uuid env)),
         mkWorld
           (mkRedis
              (setex (now env) (uuid env) 3600
                 (Session.mk ph callSid ENROLLMENT None None None (now env))
                 (session (redis w)))
              (confirm (redis w)) (challenge (redis w)) (blocked (redis w)))
           (profiles w) (auditLogs w)
           (history w ++ [ProfileFindOne ph;
                          CallsCreate url ph (Some callSid);
                          RedisSetex ("session:" ++ uuid env) 3600]))
    | None =>
        (Some SystemError500,
         mkWorld (redis w) (profiles w) (auditLogs w)
                 (history w ++ [ProfileFindOne ph; CallsCreate url ph None]))
    end.
Proof.
  intros Hf. run_handler. rewrite Hf. cbn.
  destruct (call_result env); cbn; f_equal; same_world.
Qed.

(** The calls that a run of initiate makes, in order. *)
Lemma initiate_effects (env : Env) (ph ty : string) (amt : JsNumber)
    (w : World) :
  exists url,
    new_effects w (snd (run_initiate env ph ty amt w))
    = match call_result env with
      | Some callSid =>
          [ProfileFindOne ph; CallsCreate url ph (Some callSid);
           RedisSetex ("session:" ++ uuid env) 3600]
      | None => [ProfileFindOne ph; CallsCreate url ph None]
      end.
Proof.
  destruct (list_find (fun q => VoiceProfile.phoneNumber q = ph) (profiles w))
    as [[i p]|] eqn:Hf.
  - rewrite (initiate_known env ph ty amt w i p Hf). cbn zeta.
    eexists. destruct (call_result env); cbn [snd];
      erewrite new_effects_app by reflexivity; reflexivity.
  - rewrite (initiate_unknown env ph ty amt w Hf). cbn zeta.
    eexists. destruct (call_result env); cbn [snd];
      erewrite new_effects_app by reflexivity; reflexivity.
Qed.

Lemma initiate_call_fails (env : Env) (ph ty : string) (amt : JsNumber)
    (w : World) :
  call_result env = None ->
  fst (run_initiate env ph ty amt w) = Some SystemError500
  /\ redis (snd (run_initiate env ph ty amt w)) = redis w.
Proof.
  intros Hc.
  destruct (list_find (fun q => VoiceProfile.phoneNumber q = ph) (profiles w))
    as [[i p]|] eqn:Hf.
  - rewrite (initiate_known env ph ty amt w i p Hf). cbn zeta.
    rewrite Hc. split; reflexivity.
  - rewrite (initiate_unknown env ph ty amt w Hf). cbn zeta.
    rewrite Hc. split; reflexivity.
Qed.

(** C9. When Twilio rejects the call, initiate answers with the system
    error, writes nothing to Redis and issues no SETEX, so no session is
    left; and in every run of initiate a SETEX comes only after a call
    that Twilio accepted. *)
Theorem session_written_only_after_call
    (env : Env) (phoneNumber transactionType : string) (amount : JsNumber)
    (w : World) :
  call_result env = None ->
  (fst (run_initiate env phoneNumber transactionType amount w)
   = Some SystemError500
   /\ redis (snd (run_initiate env phoneNumber transactionType amount w))
      = redis w
   /\ existsb is_setex
        (new_effects w
           (snd (run_initiate env phoneNumber transactionType amount w)))
      = false)
  /\ forall (env0 : Env) (ph ty : string) (amt : JsNumber) (w0 : World)
            (k : nat) (key : string) (ttl : Z),
       new_effects w0 (snd (run_initiate env0 ph ty amt w0)) !! k
       = Some (RedisSetex key ttl) ->
       exists (j : nat) (url callSid : string),
         (j < k)%nat
         /\ new_effects w0 (snd (run_initiate env0 ph ty amt w0)) !! j
            = Some (CallsCreate url ph (Some callSid)).
Proof.
  intros Hc. split.
  - destruct (initiate_call_fails env phoneNumber transactionType amount w Hc)
      as [Hr Hw].
    split_and!; [exact Hr | exact Hw |].
    destruct (initiate_effects env phoneNumber transactionType amount w)
      as [url ->].
    rewrite Hc. reflexivity.
  - intros env0 ph ty amt w0 k key ttl.
    destruct (initiate_effects env0 ph ty amt w0) as [url ->].
    destruct (call_result env0) as [callSid|].
    + destruct k as [|[|[|k]]]; cbn; try discriminate.
      intros _. exists 1%nat, url, callSid. split; [lia | reflexivity].
    + destruct k as [|[|k]]; cbn; discriminate.
Qed.

Lemma session_written_only_after_call_witness :
  fst (run_initiate rejected_call example_phone "TRANSFER" (Num 5000)
                    (enrolled_world 0))
  = Some SystemError500
  /\ redis (snd (run_initiate rejected_call example_phone "TRANSFER"
                              (Num 5000) (enrolled_world 0)))
     = redis (enrolled_world 0)
  /\ existsb is_setex
       (new_effects (enrolled_world 0)
          (snd (run_initiate rejected_call example_phone "TRANSFER"
                             (Num 5000) (enrolled_world 0))))
     = false.
Proof.
  apply (session_written_only_after_call rejected_call example_phone
           "TRANSFER" (Num 5000) (enrolled_world 0)).
  reflexivity.
Defined.

(** C1 fails on the code.  After three failed verifications the number has
    a profile that counts 3 failures and a live lockout record, and initiate
    still has Twilio place the call and answers that the verification has
    started. *)
Lemma initiate_ignores_lockout :
  isLocked (request (noon + 60000) "S3" (1 # 2) (Some "CA3")) locked_world
           example_phone = true
  /\ failureCount locked_world example_phone = Some 3
  /\ fst initiate_while_locked = Some (VerificationStarted "S3" "LOW")
  /\ new_effects locked_world (snd initiate_while_locked)
     = [ProfileFindOne example_phone;
        CallsCreate "https://api.redessip.pe/biometric/verify/S3"
                    example_phone (Some "CA3");
        RedisSetex "session:S3" 3600].
Proof. split_and!; vm_compute; reflexivity. Qed.

(** C7, as amended.  For an enrolled number, a TRANSFER of 5000 is not
    above the 5000 threshold: when the call is placed, initiate opens a
    VERIFICATION session whose risk score is 0, or 15 before 6 h and after
    22 h, and answers with the risk level LOW. *)
Theorem transfer_5000_scores_low
    (env : Env) (phoneNumber callSid : string) (w : World) (i : nat)
    (p : VoiceProfile.t) :
  list_find (fun q => VoiceProfile.phoneNumber q = phoneNumber) (profiles w)
  = Some (i, p) ->
  call_result env = Some callSid ->
  fst (run_initiate env phoneNumber "TRANSFER" (Num 5000) w)
  = Some (VerificationStarted (uuid env) "LOW")
  /\ exists s,
       live (now env)
            (session (redis (snd (run_initiate env phoneNumber "TRANSFER"
                                               (Num 5000) w))))
            (uuid env) = Some s
       /\ Session.type s = VERIFICATION
       /\ Session.phoneNumber s = phoneNumber
       /\ Session.riskScore s
          = Some (if (getHours env <? 6) || (getHours env >? 22)
                  then 15 else 0).
Proof.
  intros Hf Hc.
  rewrite (initiate_known env phoneNumber "TRANSFER" (Num 5000) w i p Hf).
  cbn zeta. rewrite Hc. cbn [fst snd redis session].
  rewrite calculateRiskScore_unfold.
  change (js_gt (Num 5000) 5000) with false.
  change (js_gt (Num 5000) 10000) with false.
  change ("TRANSFER" =? "INTERNATIONAL")%string with false.
  change ("TRANSFER" =? "CRYPTO")%string with false.
  split.
  - destruct ((getHours env <? 6) || (getHours env >? 22)); reflexivity.
  - eexists. rewrite live_setex by lia. split_and!; try reflexivity.
    cbn. destruct ((getHours env <? 6) || (getHours env >? 22)); reflexivity.
Qed.

Lemma transfer_5000_scores_low_witness :
  fst transfer_5000_at_noon = Some (VerificationStarted "S2" "LOW").
Proof.
  apply (transfer_5000_scores_low (request noon "S2" (1 # 2) (Some "CA2"))
           example_phone "CA2" (mkWorld no_redis [example_profile 0] [] [])
           0%nat (example_profile 0));
    reflexivity.
Defined.

(** C7, as stated, fails: at noon the answer is LOW and the session
    carries the score 0, not MEDIUM and 30. *)
Lemma transfer_5000_is_not_medium :
  fst transfer_5000_at_noon = Some (VerificationStarted "S2" "LOW")
  /\ (Session.riskScore
        <$> live noon (session (redis (snd transfer_5000_at_noon))) "S2")
     = Some (Some 0)
  /\ fst transfer_5000_at_noon <> Some (VerificationStarted "S2" "MEDIUM")
  /\ (Session.riskScore
        <$> live noon (session (redis (snd transfer_5000_at_noon))) "S2")
     <> Some (Some 30).
Proof.
  split_and!; try (vm_compute; reflexivity); vm_compute; discriminate.
Qed.

(** ** Enrollment *)

Lemma processEnrollment_no_session (env : Env) (sid url : string)
    (From FromCarrier : option string) (w : World) :
  live (now env) (session (redis w)) sid = None ->
  run_twiml (processEnrollment env sid url From FromCarrier) w
  = ([Say EnrollmentProblem; Hangup],
     mkWorld (redis w) (profiles w) (auditLogs w)
             (history w ++ [RedisGet ("session:" ++ sid)])).
Proof. intros Hs. run_handler. rewrite Hs. cbn. same_world. Qed.

Lemma userId_taken_false (u : string) (ps : list VoiceProfile.t) :
  userId_taken u ps = false -> u ∉ userIds ps.
Proof.
  unfold userId_taken, userIds. induction ps as [|q ps IH]; cbn.
  - intros _. apply not_elem_of_nil.
  - intros H. apply orb_false_iff in H as [Hq Hps].
    apply String.eqb_neq in Hq. rewrite not_elem_of_cons. auto.
Qed.

(** The profiles after a run of process-enrollment: the collection as it
    was, or with one more profile whose userId was not in use. *)
Lemma processEnrollment_profiles (env : Env) (sid url : string)
    (From FromCarrier : option string) (w : World) :
  let w' := snd (run_twiml (processEnrollment env sid url From FromCarrier) w)
  in
  session (redis w') = session (redis w)
  /\ (profiles w' = profiles w
      \/ exists p, profiles w' = (profiles w ++ [p])%list
                   /\ VoiceProfile.userId p ∉ userIds (profiles w)).
Proof.
  cbn zeta. run_handler.
  destruct (live (now env) (session (redis w)) sid) as [sd|]; cbn;
    [|split; [reflexivity | left; reflexivity]].
  match goal with
  | |- context [if ?b then _ else _] => destruct b eqn:Hok
  end; cbn.
  - split; [reflexivity|]. right. eexists. split; [reflexivity|].
    apply andb_true_iff in Hok as [_ Hfree].
    apply negb_true_iff in Hfree. cbn. by apply userId_taken_false.
  - split; [reflexivity | left; reflexivity].
Qed.

(** C3, as amended.  With no live session under the sessionId (never
    written, or expired), process-enrollment answers with the error prompt
    and leaves the profiles, the audit log and Redis as they were, on a
    first and on a second invocation.  A run of process-enrollment never
    removes or changes a session record, so a completed session stays live
    until its time to live elapses; what stays unique among the profiles is
    the userId. *)
Theorem enrollment_without_session_creates_no_profile
    (env1 env2 : Env) (sid url1 url2 : string)
    (From1 From2 Carrier1 Carrier2 : option string) (w : World) :
  live (now env1) (session (redis w)) sid = None ->
  live (now env2) (session (redis w)) sid = None ->
  (forall r1 r2,
     r1 = run_twiml (processEnrollment env1 sid url1 From1 Carrier1) w ->
     r2 = run_twiml (processEnrollment env2 sid url2 From2 Carrier2) (snd r1)
     ->
     fst r1 = [Say EnrollmentProblem; Hangup]
     /\ fst r2 = [Say EnrollmentProblem; Hangup]
     /\ profiles (snd r1) = profiles w
     /\ profiles (snd r2) = profiles w
     /\ auditLogs (snd r2) = auditLogs w
     /\ redis (snd r2) = redis w)
  /\ forall (env : Env) (sid0 url : string) (From Carrier : option string)
            (w0 : World),
       session (redis (snd (run_twiml
                              (processEnrollment env sid0 url From Carrier)
                              w0)))
       = session (redis w0)
       /\ (NoDup (userIds (profiles w0)) ->
           NoDup (userIds
                    (profiles
                       (snd (run_twiml
                               (processEnrollment env sid0 url From Carrier)
                               w0))))).
Proof.
  intros Hs1 Hs2. split.
  - intros r1 r2 -> ->.
    rewrite (processEnrollment_no_session env1 sid url1 From1 Carrier1 w Hs1).
    cbn [snd fst].
    rewrite processEnrollment_no_session by exact Hs2.
    split_and!; reflexivity.
  - intros env sid0 url From Carrier w0.
    destruct (processEnrollment_profiles env sid0 url From Carrier w0)
      as [Hsess Hprof].
    cbn zeta in Hsess, Hprof. split; [exact Hsess|].
    intros Hnd. destruct Hprof as [-> | (p & -> & Hfresh)]; [exact Hnd|].
    unfold userIds in *. rewrite fmap_app. cbn.
    apply NoDup_app. split_and!.
    + exact Hnd.
    + intros u Hu Hin. apply list_elem_of_singleton in Hin as ->. auto.
    + apply NoDup_singleton.
Qed.

Lemma enrollment_without_session_creates_no_profile_witness :
  fst (run_twiml (processEnrollment (request (noon + 7200000) "u-3" (1 # 2)
                                             None)
                    "S1" example_recording (Some example_phone) None)
                 enrolling_world)
  = [Say EnrollmentProblem; Hangup]
  /\ profiles
       (snd (run_twiml
               (processEnrollment (request (noon + 7300000) "u-4" (1 # 2)
                                           None)
                  "S1" example_recording (Some example_phone) None)
               (snd (run_twiml
                       (processEnrollment (request (noon + 7200000) "u-3"
                                                   (1 # 2) None)
                          "S1" example_recording (Some example_phone) None)
                       enrolling_world))))
     = [].
Proof.
  destruct (proj1 (enrollment_without_session_creates_no_profile
                     (request (noon + 7200000) "u-3" (1 # 2) None)
                     (request (noon + 7300000) "u-4" (1 # 2) None)
                     "S1" example_recording example_recording
                     (Some example_phone) (Some example_phone) None None
                     enrolling_world eq_refl eq_refl)
                  _ _ eq_refl eq_refl)
    as (H1 & _ & _ & H4 & _).
  split; [exact H1 | exact H4].
Defined.

(** C3, as stated, fails: the enrollment callback delivered a second time
    for the same sessionId, within the hour, is answered like the first
    and stores a second profile for the same phone number. *)
Lemma replayed_enrollment_duplicates_profile :
  phoneNumbers (profiles after_first_enrollment) = [example_phone]
  /\ said SystemErrorPrompt (fst replayed_enrollment) = false
  /\ fst replayed_enrollment
     = [Say (ProfileCreated 550000); Say ThanksEnrollment; Hangup]
  /\ phoneNumbers (profiles (snd replayed_enrollment))
     = [example_phone; example_phone]
  /\ userIds (profiles (snd replayed_enrollment)) = ["u-1"; "u-2"]
  /\ ~ NoDup (phoneNumbers (profiles (snd replayed_enrollment))).
Proof.
  split_and!; try (vm_compute; reflexivity).
  assert (phoneNumbers (profiles (snd replayed_enrollment))
          = [example_phone; example_phone]) as -> by (vm_compute; reflexivity).
  intros H. apply NoDup_cons in H as [Hn _]. apply Hn. left.
Qed.

(** * Further properties of the handlers *)

(** ** Redis entries and their time to live *)

Lemma live_setex_at {V : Type} (t t0 : Z) (k : string) (ttl : Z) (v : V)
    (m : gmap string (V * Z)) :
  live t (setex t0 k ttl v m) k
  = if t <? t0 + ttl * 1000 then Some v else None.
Proof. unfold live, setex. rewrite lookup_insert_eq. reflexivity. Qed.

Lemma live_setex_other {V : Type} (t t0 : Z) (k k' : string) (ttl : Z)
    (v : V) (m : gmap string (V * Z)) :
  k <> k' -> live t (setex t0 k ttl v m) k' = live t m k'.
Proof.
  intros Hne. unfold live, setex. rewrite lookup_insert_ne by exact Hne.
  reflexivity.
Qed.

Ltac decide_closed :=
  vm_compute;
  first [ reflexivity
        | let Habs := fresh "Habs" in intro Habs; discriminate Habs ].

(** ** Rounding to the nearest double *)

Lemma pow2_pos (e : Z) : (0 < pow2 e)%Q.
Proof. apply Qpower_0_lt. reflexivity. Qed.

Lemma pow2_add (a b : Z) : (pow2 (a + b) == pow2 a * pow2 b)%Q.
Proof. apply Qpower_plus. discriminate. Qed.

Lemma pow2_le (a b : Z) : a <= b -> (pow2 a <= pow2 b)%Q.
Proof. intros H. apply Qpower_le_compat_l; [exact H | discriminate]. Qed.

Lemma pow2_lt (a b : Z) : a < b -> (pow2 a < pow2 b)%Q.
Proof. intros H. apply Qpower_lt_compat_l; [exact H | reflexivity]. Qed.

Lemma pow2_lt_inv (a b : Z) : (pow2 a < pow2 b)%Q -> a < b.
Proof. intros H. eapply Qpower_lt_compat_l_inv; [exact H | reflexivity]. Qed.

Lemma pow2_inject (a : Z) : 0 <= a -> (inject_Z (2 ^ a) == pow2 a)%Q.
Proof. intros H. apply (Zpower_Qpower 2 a H). Qed.

Lemma pow2_cancel (a : Z) : (pow2 (- a) * pow2 a == 1)%Q.
Proof. rewrite <- pow2_add. replace (- a + a) with 0 by lia. reflexivity. Qed.

Lemma ilog2_spec (q : Q) :
  (0 < q)%Q -> (pow2 (ilog2 q) <= q)%Q /\ (q < pow2 (ilog2 q + 1))%Q.
Proof.
  intros Hq. destruct q as [n d].
  assert (0 < n) as Hn by (unfold Qlt in Hq; simpl in Hq; lia).
  set (a := Z.log2 n). set (b := Z.log2 (Zpos d)).
  assert (0 <= a) as Ha by apply Z.log2_nonneg.
  assert (0 <= b) as Hb by apply Z.log2_nonneg.
  destruct (Z.log2_spec n Hn) as [Hn1 Hn2]. fold a in Hn1, Hn2.
  destruct (Z.log2_spec (Zpos d) (Pos2Z.is_pos d)) as [Hd1 Hd2].
  fold b in Hd1, Hd2.
  assert (inject_Z (Zpos d) * (n # d) == inject_Z n)%Q as Hnd.
  { unfold Qeq, Qmult, inject_Z. simpl. lia. }
  assert (0 < inject_Z (Zpos d))%Q as Hdpos by (unfold Qlt; simpl; lia).
  assert (pow2 a <= inject_Z n)%Q as Qn1.
  { rewrite <- pow2_inject by exact Ha. rewrite <- Zle_Qle. exact Hn1. }
  assert (inject_Z n < pow2 (a + 1))%Q as Qn2.
  { rewrite <- pow2_inject by lia. rewrite <- Zlt_Qlt.
    replace (a + 1) with (Z.succ a) by lia. exact Hn2. }
  assert (pow2 b <= inject_Z (Zpos d))%Q as Qd1.
  { rewrite <- pow2_inject by exact Hb. rewrite <- Zle_Qle. exact Hd1. }
  assert (inject_Z (Zpos d) < pow2 (b + 1))%Q as Qd2.
  { rewrite <- pow2_inject by lia. rewrite <- Zlt_Qlt.
    replace (b + 1) with (Z.succ b) by lia. exact Hd2. }
  (* 2^(k-1) < q < 2^(k+1) for k = a - b *)
  assert (pow2 (a - b - 1) < n # d)%Q as Hlow.
  { apply (Qmult_lt_l _ _ (inject_Z (Zpos d)) Hdpos). rewrite Hnd.
    eapply Qlt_le_trans; [|exact Qn1].
    apply Qlt_le_trans with (pow2 (b + 1) * pow2 (a - b - 1))%Q.
    - apply Qmult_lt_compat_r; [apply pow2_pos | exact Qd2].
    - rewrite <- pow2_add. replace (b + 1 + (a - b - 1)) with a by lia.
      apply Qle_refl. }
  assert (n # d < pow2 (a - b + 1))%Q as Hhigh.
  { apply (Qmult_lt_l _ _ (inject_Z (Zpos d)) Hdpos). rewrite Hnd.
    eapply Qlt_le_trans; [exact Qn2|].
    apply Qle_trans with (pow2 b * pow2 (a - b + 1))%Q.
    - rewrite <- pow2_add. replace (b + (a - b + 1)) with (a + 1) by lia.
      apply Qle_refl.
    - apply Qmult_le_compat_r; [exact Qd1 | apply Qlt_le_weak, pow2_pos]. }
  unfold ilog2. cbn [Qnum Qden]. fold a b.
  destruct (Qle_bool (pow2 (a - b)) (n # d)) eqn:Hk.
  - apply Qle_bool_iff in Hk. split; assumption.
  - split.
    + apply Qlt_le_weak. exact Hlow.
    + replace (a - b - 1 + 1) with (a - b) by lia.
      apply Qnot_le_lt. intros H. apply Qle_bool_iff in H. congruence.
Qed.

Lemma ilog2_unique (q : Q) (k : Z) :
  (pow2 k <= q)%Q -> (q < pow2 (k + 1))%Q -> ilog2 q = k.
Proof.
  intros H1 H2.
  assert (0 < q)%Q as Hq by (eapply Qlt_le_trans; [apply pow2_pos | exact H1]).
  destruct (ilog2_spec q Hq) as [S1 S2].
  assert (ilog2 q < k + 1)
    by (apply pow2_lt_inv; eapply Qle_lt_trans; eassumption).
  assert (k < ilog2 q + 1)
    by (apply pow2_lt_inv; eapply Qle_lt_trans; eassumption).
  lia.
Qed.

Lemma ilog2_mono (x y : Q) : (0 < x)%Q -> (x <= y)%Q -> ilog2 x <= ilog2 y.
Proof.
  intros Hx Hxy.
  assert (0 < y)%Q as Hy by (eapply Qlt_le_trans; eassumption).
  destruct (ilog2_spec x Hx) as [X1 _]. destruct (ilog2_spec y Hy) as [_ Y2].
  assert (ilog2 x < ilog2 y + 1); [|lia].
  apply pow2_lt_inv. eapply Qle_lt_trans; [exact X1|].
  eapply Qle_lt_trans; eassumption.
Qed.

Lemma round_half_even_Z (n : Z) : round_half_even (inject_Z n) = n.
Proof.
  unfold round_half_even. rewrite Qfloor_Z.
  assert (inject_Z n - inject_Z n == 0)%Q as E by ring.
  rewrite E. reflexivity.
Qed.

Lemma round_half_even_mono (x y : Q) :
  (x <= y)%Q -> round_half_even x <= round_half_even y.
Proof.
  intros Hxy. pose proof (Qfloor_resp_le x y Hxy) as Hf.
  unfold round_half_even.
  destruct (Qcompare_spec (x - inject_Z (Qfloor x)) (1 # 2)) as [Ex|Ex|Ex];
    destruct (Qcompare_spec (y - inject_Z (Qfloor y)) (1 # 2)) as [Ey|Ey|Ey];
    destruct (Z.even (Qfloor x)) eqn:Evx;
    destruct (Z.even (Qfloor y)) eqn:Evy; try lia;
    (destruct (Z.eq_dec (Qfloor x) (Qfloor y)) as [Efl|Nfl]; [|lia]);
    exfalso; rewrite Efl in *; try congruence; lra.
Qed.

Lemma round_half_even_le (x : Q) (n : Z) :
  (x <= inject_Z n)%Q -> round_half_even x <= n.
Proof.
  intros H. rewrite <- (round_half_even_Z n). by apply round_half_even_mono.
Qed.

Lemma round_half_even_ge (x : Q) (n : Z) :
  (inject_Z n <= x)%Q -> n <= round_half_even x.
Proof.
  intros H. rewrite <- (round_half_even_Z n). by apply round_half_even_mono.
Qed.

Lemma exponent_ge (q : Q) : ilog2 q - 52 <= exponent q /\ -1074 <= exponent q.
Proof. unfold exponent. lia. Qed.

Lemma round_pos_nonneg (q : Q) : (0 <= q)%Q -> (0 <= round_pos q)%Q.
Proof.
  intros Hq. unfold round_pos. apply Qmult_le_0_compat.
  - change 0%Q with (inject_Z 0). rewrite <- Zle_Qle.
    apply round_half_even_ge. cbn. apply Qmult_le_0_compat; [exact Hq|].
    apply Qlt_le_weak, pow2_pos.
  - apply Qlt_le_weak, pow2_pos.
Qed.

Lemma round_pos_upper (q : Q) :
  (0 < q)%Q -> (round_pos q <= pow2 (exponent q + 53))%Q.
Proof.
  intros Hq. destruct (ilog2_spec q Hq) as [_ H2].
  destruct (exponent_ge q) as [He _]. set (e := exponent q) in *.
  unfold round_pos. fold e.
  rewrite (Z.add_comm e 53), pow2_add.
  apply Qmult_le_compat_r; [|apply Qlt_le_weak, pow2_pos].
  rewrite <- (pow2_inject 53) by lia. rewrite <- Zle_Qle.
  apply round_half_even_le. rewrite (pow2_inject 53) by lia.
  apply Qle_trans with (pow2 (ilog2 q + 1) * pow2 (- e))%Q.
  - apply Qmult_le_compat_r; [apply Qlt_le_weak, H2|].
    apply Qlt_le_weak, pow2_pos.
  - rewrite <- pow2_add. apply pow2_le. lia.
Qed.

Lemma round_pos_lower (q : Q) :
  (0 < q)%Q -> -1074 < exponent q ->
  (pow2 (exponent q + 52) <= round_pos q)%Q.
Proof.
  intros Hq Hn. destruct (ilog2_spec q Hq) as [H1 _].
  assert (exponent q = ilog2 q - 52) as He by (unfold exponent in *; lia).
  set (e := exponent q) in *.
  unfold round_pos. fold e.
  rewrite (Z.add_comm e 52), pow2_add.
  apply Qmult_le_compat_r; [|apply Qlt_le_weak, pow2_pos].
  rewrite <- (pow2_inject 52) by lia. rewrite <- Zle_Qle.
  apply round_half_even_ge. rewrite (pow2_inject 52) by lia.
  apply Qle_trans with (pow2 (ilog2 q) * pow2 (- e))%Q.
  - rewrite <- pow2_add. apply pow2_le. lia.
  - apply Qmult_le_compat_r; [exact H1|]. apply Qlt_le_weak, pow2_pos.
Qed.

Lemma round_pos_mono (x y : Q) :
  (0 < x)%Q -> (x <= y)%Q -> (round_pos x <= round_pos y)%Q.
Proof.
  intros Hx Hxy.
  assert (0 < y)%Q as Hy by (eapply Qlt_le_trans; eassumption).
  pose proof (ilog2_mono x y Hx Hxy) as Hl.
  assert (exponent x <= exponent y) as He by (unfold exponent; lia).
  destruct (Z.eq_dec (exponent x) (exponent y)) as [Eq|Ne].
  - unfold round_pos. rewrite Eq.
    apply Qmult_le_compat_r; [|apply Qlt_le_weak, pow2_pos].
    rewrite <- Zle_Qle. apply round_half_even_mono.
    apply Qmult_le_compat_r; [exact Hxy | apply Qlt_le_weak, pow2_pos].
  - destruct (exponent_ge x) as [_ Hx74].
    eapply Qle_trans; [apply round_pos_upper, Hx|].
    eapply Qle_trans; [|apply round_pos_lower; [exact Hy | lia]].
    apply pow2_le. lia.
Qed.

Lemma round64_nonneg (q : Q) : (0 <= q)%Q -> (0 <= round64 q)%Q.
Proof.
  intros Hq. unfold round64.
  destruct (Qcompare_spec q 0) as [E|L|G].
  - apply Qle_refl.
  - exfalso. lra.
  - apply round_pos_nonneg, Hq.
Qed.

Lemma round64_mono (x y : Q) :
  (0 <= x)%Q -> (x <= y)%Q -> (round64 x <= round64 y)%Q.
Proof.
  intros Hx Hxy. unfold round64 at 1.
  destruct (Qcompare_spec x 0) as [E|L|G].
  - apply round64_nonneg. lra.
  - exfalso. lra.
  - unfold round64. destruct (Qcompare_spec y 0) as [E'|L'|G'];
      [exfalso; lra | exfalso; lra |].
    apply round_pos_mono; assumption.
Qed.

Lemma round64_eq (x y : Q) :
  (0 <= x)%Q -> (x == y)%Q -> (round64 x == round64 y)%Q.
Proof.
  intros Hx E. apply Qle_antisym; apply round64_mono; lra.
Qed.

(** The doubles of [1/2, 1) are the multiples of 2^-53. *)
Lemma round64_grid (r : Q) :
  (1 # 2 <= r)%Q -> (r < 1)%Q -> (round64 r == r)%Q ->
  exists m : Z, (r == inject_Z m * (1 # 9007199254740992))%Q.
Proof.
  intros H1 H2 E.
  assert (ilog2 r = -1) as Hl by (apply ilog2_unique; assumption).
  assert (exponent r = -53) as He by (unfold exponent; rewrite Hl; reflexivity).
  unfold round64 in E. destruct (Qcompare_spec r 0) as [?|?|?];
    [exfalso; lra | exfalso; lra |].
  unfold round_pos in E. rewrite He in E.
  eexists. symmetry. exact E.
Qed.

Lemma double_below_1 (r : Q) :
  (r < 1)%Q -> (round64 r == r)%Q -> (r <= 1 - (1 # 9007199254740992))%Q.
Proof.
  intros H1 E. destruct (Qlt_le_dec r (1 # 2)) as [Hs|Hb]; [lra|].
  destruct (round64_grid r Hb H1 E) as [m Hm].
  assert (m < 9007199254740992) as Hlt.
  { rewrite Zlt_Qlt. change (inject_Z 9007199254740992) with 9007199254740992%Q. lra. }
  assert (inject_Z m <= inject_Z 9007199254740991)%Q as Hle
    by (rewrite <- Zle_Qle; lia).
  change (inject_Z 9007199254740991) with 9007199254740991%Q in Hle. lra.
Qed.

Lemma double_above_5_8 (r : Q) :
  (5 # 8 < r)%Q -> (r < 1)%Q -> (round64 r == r)%Q ->
  ((5 # 8) + (1 # 9007199254740992) <= r)%Q.
Proof.
  intros H0 H1 E.
  destruct (round64_grid r ltac:(lra) H1 E) as [m Hm].
  assert (5629499534213120 < m) as Hlt.
  { rewrite Zlt_Qlt. change (inject_Z 5629499534213120) with 5629499534213120%Q. lra. }
  assert (inject_Z 5629499534213121 <= inject_Z m)%Q as Hle
    by (rewrite <- Zle_Qle; lia).
  change (inject_Z 5629499534213121) with 5629499534213121%Q in Hle. lra.
Qed.

(** Where rounding shows: the literal 0.4, two codes that exact arithmetic
    would put one lower, and the score at the largest random number. *)
Lemma round64_examples :
  (round64 (4 # 10) == 3602879701896397 # 9007199254740992)%Q
  /\ challengeCode (request 0 "" (6254999482459 # 2251799813685248) None)
     = 1025
  /\ Qfloor (1000 + (6254999482459 # 2251799813685248) * 9000)%Q = 1024
  /\ confirmationCode (request 0 "" (150119987579 # 4503599627370496) None)
     = 100030
  /\ (matcher_score largest_random == 1)%Q.
Proof. split_and!; decide_closed. Qed.

(** ** The codes drawn from [Math.random()] *)

(** The code [Math.floor(a + Math.random() * b)] grows with the random
    number. *)
Lemma scaled_code_mono (a b r1 r2 : Q) :
  (0 <= a)%Q -> (0 <= b)%Q -> (0 <= r1)%Q -> (r1 <= r2)%Q ->
  Qfloor (round64 (a + round64 (r1 * b)))
  <= Qfloor (round64 (a + round64 (r2 * b))).
Proof.
  intros Ha Hb H1 H12.
  assert (0 <= r1 * b)%Q as Hp by (apply Qmult_le_0_compat; assumption).
  assert (r1 * b <= r2 * b)%Q as Hm by (apply Qmult_le_compat_r; assumption).
  pose proof (round64_nonneg _ Hp) as Hn.
  pose proof (round64_mono _ _ Hp Hm) as Hr.
  apply Qfloor_resp_le, round64_mono; lra.
Qed.

Lemma challengeCode_range (env : Env) :
  random_ok env -> 1000 <= challengeCode env <= 9999.
Proof.
  intros (H0 & H1 & Hd). pose proof (double_below_1 _ H1 Hd) as Hmax.
  unfold challengeCode. split.
  - change 1000 with (Qfloor (round64 (1000 + round64 (0 * 9000)))) at 1.
    apply scaled_code_mono; try exact H0; discriminate.
  - change 9999
      with (Qfloor (round64 (1000 + round64
                      ((1 - (1 # 9007199254740992)) * 9000)))).
    apply scaled_code_mono; try assumption; discriminate.
Qed.

Lemma confirmationCode_range (env : Env) :
  random_ok env -> 100000 <= confirmationCode env <= 999999.
Proof.
  intros (H0 & H1 & Hd). pose proof (double_below_1 _ H1 Hd) as Hmax.
  unfold confirmationCode. split.
  - change 100000
      with (Qfloor (round64 (100000 + round64 (0 * 900000)))) at 1.
    apply scaled_code_mono; try exact H0; discriminate.
  - change 999999
      with (Qfloor (round64 (100000 + round64
                      ((1 - (1 # 9007199254740992)) * 900000)))).
    apply scaled_code_mono; try assumption; discriminate.
Qed.

(** X1. The verify handler, for any session id (it does not look the
    session up), draws from a double [Math.random()] in [0, 1) a challenge
    of four digits, says it, asks for a
    recording of at most 8 seconds to be posted to process-verification of
    the same session, and stores the challenge under the session id, where
    it can be read for the next 120 seconds and no longer. *)
Theorem verify_issues_four_digit_challenge
    (env : Env) (sessionId : string) (w : World) :
  random_ok env ->
  1000 <= challengeCode env <= 9999
  /\ fst (run_twiml (verify env sessionId) w)
     = [Say VerifyGreeting; Say (SayChallenge (challengeCode env));
        RecordVerb 8 ("/biometric/process-verification/" ++ sessionId)]
  /\ forall t,
       live t (challenge (redis (snd (run_twiml (verify env sessionId) w))))
            sessionId
       = if t <? now env + 120000 then Some (challengeCode env) else None.
Proof.
  intros Hr. split; [|split].
  - apply challengeCode_range, Hr.
  - reflexivity.
  - intros t. rewrite verify_world. cbn [with_challenge redis set_redis challenge].
    apply live_setex_at.
Qed.

Lemma verify_issues_four_digit_challenge_witness :
  1000 <= challengeCode (failing_request 0) <= 9999
  /\ live (noon + 119999)
          (challenge (redis (snd (run_twiml (verify (failing_request 0) "S2")
                                            (enrolled_world 0)))))
          "S2"
     = Some 5500.
Proof.
  destruct (verify_issues_four_digit_challenge (failing_request 0) "S2"
              (enrolled_world 0)) as (Hrange & _ & Hlive).
  - repeat split; decide_closed.
  - split; [exact Hrange|]. rewrite Hlive. reflexivity.
Defined.

(** ** Enrollment *)

Lemma userId_taken_true (u : string) (ps : list VoiceProfile.t) :
  userId_taken u ps = true <-> u ∈ userIds ps.
Proof.
  unfold userId_taken, userIds. induction ps as [|q ps IH]; cbn.
  - split; [discriminate|]. intros H. by apply elem_of_nil in H.
  - rewrite orb_true_iff, IH, String.eqb_eq, elem_of_cons.
    split; (intros [H|H]; [left; congruence | right; exact H]).
Qed.

Lemma insert_allowed_iff (p : VoiceProfile.t) (ps : list VoiceProfile.t) :
  required_ok p && negb (userId_taken (VoiceProfile.userId p) ps) = true
  <-> (VoiceProfile.userId p <> "" /\ VoiceProfile.phoneNumber p <> ""
       /\ VoiceProfile.voicePrint p <> "")
      /\ VoiceProfile.userId p ∉ userIds ps.
Proof.
  unfold required_ok.
  rewrite !andb_true_iff, !negb_true_iff, !String.eqb_neq.
  rewrite <- not_true_iff_false, userId_taken_true. tauto.
Qed.

Lemma processEnrollment_saved (env : Env) (sid url : string)
    (From FromCarrier : option string) (w : World) (sd : Session.t) :
  live (now env) (session (redis w)) sid = Some sd ->
  required_ok (new_profile env (Session.phoneNumber sd) From FromCarrier)
  && negb (userId_taken (uuid env) (profiles w)) = true ->
  run_twiml (processEnrollment env sid url From FromCarrier) w
  = ([Say (ProfileCreated (confirmationCode env)); Say ThanksEnrollment;
      Hangup],
     mkWorld
       (mkRedis (session (redis w))
                (setex (now env) (Session.phoneNumber sd) 300
                       (confirmationCode env) (confirm (redis w)))
                (challenge (redis w)) (blocked (redis w)))
       (profiles w
        ++ [new_profile env (Session.phoneNumber sd) From FromCarrier])
       (auditLogs w
        ++ [AuditLog.mk sid (Session.phoneNumber sd) "ENROLLMENT_SUCCESS"
              "SUCCESS" (now env) (ip env) None])
       (history w
        ++ [RedisGet ("session:" ++ sid); ProfileSave (uuid env) true;
            RedisSetex ("confirm:" ++ Session.phoneNumber sd) 300;
            AuditSave "ENROLLMENT_SUCCESS"])).
Proof.
  intros Hs Hok. run_handler. rewrite Hs.
  unfold generateVoicePrint. cbn [world profiles VoiceProfile.userId].
  change (VoiceProfile.mk (uuid env) (Session.phoneNumber sd)
            (bcrypt_hash env) (now env) None 0 MEDIUM From None
            (Some (carrier_or_unknown FromCarrier)))
    with (new_profile env (Session.phoneNumber sd) From FromCarrier).
  rewrite Hok. cbn. unfold confirmationCode. same_world.
Qed.

Lemma processEnrollment_rejected (env : Env) (sid url : string)
    (From FromCarrier : option string) (w : World) (sd : Session.t) :
  live (now env) (session (redis w)) sid = Some sd ->
  required_ok (new_profile env (Session.phoneNumber sd) From FromCarrier)
  && negb (userId_taken (uuid env) (profiles w)) = false ->
  run_twiml (processEnrollment env sid url From FromCarrier) w
  = ([Say EnrollmentProblem; Hangup],
     mkWorld (redis w) (profiles w) (auditLogs w)
             (history w
              ++ [RedisGet ("session:" ++ sid); ProfileSave (uuid env) false])).
Proof.
  intros Hs Hok. run_handler. rewrite Hs.
  unfold generateVoicePrint. cbn [world profiles VoiceProfile.userId].
  change (VoiceProfile.mk (uuid env) (Session.phoneNumber sd)
            (bcrypt_hash env) (now env) None 0 MEDIUM From None
            (Some (carrier_or_unknown FromCarrier)))
    with (new_profile env (Session.phoneNumber sd) From FromCarrier).
  rewrite Hok. cbn. same_world.
Qed.

(** X2. With a live session, of whichever kind, a fresh non-empty uuid and
    non-empty phone number and hash, process-enrollment appends one profile (the session's
    phone number, no failure, level MEDIUM, never verified), writes one
    ENROLLMENT_SUCCESS audit event, announces a confirmation code of six
    digits and stores it under the phone number, where it can be read for
    the next 300 seconds and no longer. *)
Theorem enrollment_stores_profile_and_code
    (env : Env) (sid url : string) (From FromCarrier : option string)
    (w : World) (sd : Session.t) :
  live (now env) (session (redis w)) sid = Some sd ->
  Session.phoneNumber sd <> "" ->
  uuid env <> "" ->
  bcrypt_hash env <> "" ->
  uuid env ∉ userIds (profiles w) ->
  random_ok env ->
  forall r, r = run_twiml (processEnrollment env sid url From FromCarrier) w ->
  fst r = [Say (ProfileCreated (confirmationCode env)); Say ThanksEnrollment;
           Hangup]
  /\ 100000 <= confirmationCode env <= 999999
  /\ profiles (snd r)
     = (profiles w
        ++ [VoiceProfile.mk (uuid env) (Session.phoneNumber sd)
              (bcrypt_hash env) (now env) None 0 MEDIUM From None
              (Some (carrier_or_unknown FromCarrier))])%list
  /\ audit_events w (snd r)
     = [AuditLog.mk sid (Session.phoneNumber sd) "ENROLLMENT_SUCCESS"
          "SUCCESS" (now env) (ip env) None]
  /\ forall t,
       live t (confirm (redis (snd r))) (Session.phoneNumber sd)
       = if t <? now env + 300000 then Some (confirmationCode env) else None.
Proof.
  intros Hs Hph Hid Hvp Hfresh Hr r ->.
  assert (required_ok
            (new_profile env (Session.phoneNumber sd) From FromCarrier)
          && negb (userId_taken (uuid env) (profiles w)) = true) as Hok.
  { apply (insert_allowed_iff
             (new_profile env (Session.phoneNumber sd) From FromCarrier)).
    cbn. auto. }
  rewrite (processEnrollment_saved env sid url From FromCarrier w sd Hs Hok).
  cbn [fst snd profiles redis confirm].
  split; [reflexivity|]. split; [apply confirmationCode_range, Hr|].
  split; [reflexivity|]. split.
  - erewrite audit_events_app by reflexivity. reflexivity.
  - intros t. apply live_setex_at.
Qed.

Lemma enrollment_stores_profile_and_code_witness :
  userIds (profiles after_first_enrollment) = ["u-1"]
  /\ live (noon + 300999) (confirm (redis after_first_enrollment))
          example_phone
     = Some 550000
  /\ live (noon + 301000) (confirm (redis after_first_enrollment))
          example_phone
     = None.
Proof.
  assert (random_ok (request (noon + 1000) "u-1" (1 # 2) None)) as Hr
    by (repeat split; decide_closed).
  destruct (enrollment_stores_profile_and_code
              (request (noon + 1000) "u-1" (1 # 2) None) "S1"
              example_recording (Some example_phone) None enrolling_world
              (Session.mk example_phone "CA1" ENROLLMENT None None None noon)
              ltac:(vm_compute; reflexivity) ltac:(discriminate)
              ltac:(discriminate) ltac:(discriminate) (not_elem_of_nil _) Hr
              _ eq_refl)
    as (_ & _ & Hp & _ & Hc).
  unfold after_first_enrollment. rewrite Hp, !Hc.
  split_and!; reflexivity.
Defined.

(** X3. When the profile cannot be stored, because the uuid is already the
    userId of a profile or because the uuid, the session's phone number or
    the hash is empty, process-enrollment ends with the error prompt and
    leaves the profiles, the audit log and Redis as they were: no
    confirmation code is issued. *)
Theorem enrollment_rejected_stores_nothing
    (env : Env) (sid url : string) (From FromCarrier : option string)
    (w : World) (sd : Session.t) :
  live (now env) (session (redis w)) sid = Some sd ->
  Session.phoneNumber sd = "" \/ uuid env = "" \/ bcrypt_hash env = ""
  \/ uuid env ∈ userIds (profiles w) ->
  forall r, r = run_twiml (processEnrollment env sid url From FromCarrier) w ->
  fst r = [Say EnrollmentProblem; Hangup]
  /\ profiles (snd r) = profiles w
  /\ auditLogs (snd r) = auditLogs w
  /\ redis (snd r) = redis w.
Proof.
  intros Hs Hbad r ->.
  assert (required_ok
            (new_profile env (Session.phoneNumber sd) From FromCarrier)
          && negb (userId_taken (uuid env) (profiles w)) = false) as Hok.
  { apply not_true_iff_false. intros Hok.
    apply (insert_allowed_iff
             (new_profile env (Session.phoneNumber sd) From FromCarrier))
      in Hok.
    cbn in Hok. tauto. }
  rewrite (processEnrollment_rejected env sid url From FromCarrier w sd
             Hs Hok).
  split_and!; reflexivity.
Qed.

Lemma enrollment_rejected_stores_nothing_witness :
  fst (run_twiml (processEnrollment (request (noon + 2000) "u-1" (1 # 2) None)
                    "S1" example_recording (Some example_phone) None)
                 after_first_enrollment)
  = [Say EnrollmentProblem; Hangup]
  /\ userIds
       (profiles
          (snd (run_twiml
                  (processEnrollment (request (noon + 2000) "u-1" (1 # 2) None)
                     "S1" example_recording (Some example_phone) None)
                  after_first_enrollment)))
     = ["u-1"].
Proof.
  destruct (enrollment_rejected_stores_nothing
              (request (noon + 2000) "u-1" (1 # 2) None) "S1"
              example_recording (Some example_phone) None
              after_first_enrollment
              (Session.mk example_phone "CA1" ENROLLMENT None None None noon))
    with (r := run_twiml
                 (processEnrollment (request (noon + 2000) "u-1" (1 # 2) None)
                    "S1" example_recording (Some example_phone) None)
                 after_first_enrollment)
    as (Hr & Hp & _); try decide_closed.
  - right. right. right. vm_compute. left.
  - rewrite Hr, Hp. split; reflexivity.
Defined.

(** ** The matcher *)

Lemma matcher_score_mono (r1 r2 : Q) :
  (0 <= r1)%Q -> (r1 <= r2)%Q -> (matcher_score r1 <= matcher_score r2)%Q.
Proof.
  intros H1 H12. unfold matcher_score.
  assert (0 <= round64 (4 # 10))%Q as H4 by decide_closed.
  assert (0 <= round64 (6 # 10))%Q as H6 by decide_closed.
  assert (0 <= r1 * round64 (4 # 10))%Q as Hp
    by (apply Qmult_le_0_compat; assumption).
  assert (r1 * round64 (4 # 10) <= r2 * round64 (4 # 10))%Q as Hm
    by (apply Qmult_le_compat_r; assumption).
  pose proof (round64_nonneg _ Hp) as Hn.
  pose proof (round64_mono _ _ Hp Hm) as Hr.
  apply round64_mono; lra.
Qed.

(** X4. For a double [Math.random()] in [0, 1), the score that
    [verifyVoicePrint] returns lies between the double 0.6 and 1.0, both
    included (1.0 is returned for the largest double below 1), whatever the
    recording and the stored voice print; and it passes the 0.85 threshold
    exactly when [Math.random()] is above 0.625. *)
Theorem verifyVoicePrint_range
    (env : Env) (recordingUrl storedPrint : string) :
  random_ok env ->
  (round64 (6 # 10) <= verifyVoicePrint env recordingUrl storedPrint)%Q
  /\ (verifyVoicePrint env recordingUrl storedPrint <= 1)%Q
  /\ (above_threshold (verifyVoicePrint env recordingUrl storedPrint) = true
      <-> (5 # 8 < math_random env)%Q).
Proof.
  intros (H0 & H1 & Hd).
  change (verifyVoicePrint env recordingUrl storedPrint)
    with (matcher_score (math_random env)).
  pose proof (double_below_1 _ H1 Hd) as Hmax.
  split; [|split].
  - eapply Qle_trans; [|apply (matcher_score_mono 0); [discriminate | exact H0]].
    decide_closed.
  - eapply Qle_trans; [apply matcher_score_mono; [exact H0 | exact Hmax]|].
    decide_closed.
  - rewrite above_threshold_true. split.
    + intros Hs. apply Qnot_le_lt. intros Hle.
      pose proof (matcher_score_mono _ _ H0 Hle) as Hm.
      assert (matcher_score (5 # 8) <= 85 # 100)%Q as Hb by decide_closed.
      lra.
    + intros Hr. pose proof (double_above_5_8 _ Hr H1 Hd) as Hnext.
      assert (85 # 100
              < matcher_score ((5 # 8) + (1 # 9007199254740992)))%Q as Hb
        by decide_closed.
      eapply Qlt_le_trans; [exact Hb|].
      apply matcher_score_mono; [discriminate | exact Hnext].
Qed.

Lemma verifyVoicePrint_range_witness :
  (verifyVoicePrint top_request example_recording "print" <= 1)%Q
  /\ (1 <= verifyVoicePrint top_request example_recording "print")%Q
  /\ above_threshold (verifyVoicePrint top_request example_recording "print")
     = true.
Proof.
  destruct (verifyVoicePrint_range top_request example_recording "print")
    as (_ & Hhi & Hpass).
  - repeat split; decide_closed.
  - split; [exact Hhi|]. split; [decide_closed|].
    apply Hpass. decide_closed.
Defined.

(** ** The risk score and the risk level *)

Lemma js_gt_10000_5000 (a : JsNumber) :
  js_gt a 10000 = true -> js_gt a 5000 = true.
Proof.
  destruct a as [|q]; cbn; [discriminate|].
  rewrite !negb_true_iff. intros H.
  destruct (Qle_bool q (inject_Z 5000)) eqn:H5; [|reflexivity].
  apply Qle_bool_iff in H5.
  assert (Qle_bool q (inject_Z 10000) = true) as Hc.
  { apply Qle_bool_iff. eapply Qle_trans; [exact H5|].
    unfold Qle. simpl. lia. }
  congruence.
Qed.

Ltac risk_cases ty a env :=
  rewrite ?calculateRiskScore_unfold; fold (night env);
  pose proof (js_gt_10000_5000 a);
  destruct (js_gt a 5000), (js_gt a 10000),
    (String.eqb_spec ty "INTERNATIONAL"), (String.eqb_spec ty "CRYPTO"),
    (night env);
  try (exfalso; congruence);
  try (exfalso;
       match goal with
       | H : true = true -> false = true |- _ =>
           specialize (H eq_refl); discriminate
       end).

(** X6. A transaction type is one string, so the INTERNATIONAL and the
    CRYPTO surcharges never add up and the cap at 100 never cuts anything:
    the score is the plain sum of the surcharges.  It is 100 exactly for a
    CRYPTO transaction above 10000 made at night. *)
Theorem calculateRiskScore_cap_never_cuts
    (env : Env) (transactionType : string) (amount : JsNumber) :
  calculateRiskScore env transactionType amount
  = (if js_gt amount 5000 then 30 else 0)
    + (if js_gt amount 10000 then 20 else 0)
    + (if String.eqb transactionType "INTERNATIONAL" then 25 else 0)
    + (if String.eqb transactionType "CRYPTO" then 35 else 0)
    + (if night env then 15 else 0)
  /\ (calculateRiskScore env transactionType amount = 100
      <-> js_gt amount 10000 = true /\ transactionType = "CRYPTO"
          /\ night env = true).
Proof.
  split.
  - rewrite calculateRiskScore_unfold. fold (night env).
    destruct (js_gt amount 5000), (js_gt amount 10000),
      (String.eqb_spec transactionType "INTERNATIONAL"),
      (String.eqb_spec transactionType "CRYPTO"), (night env);
      try reflexivity; exfalso; congruence.
  - risk_cases transactionType amount env;
      cbn; split; try discriminate; try tauto; try (intros (? & ? & ?));
      try congruence; try discriminate.
Qed.

(** X7. The risk level of the answer is HIGH exactly when the amount is
    above 10000 and the type is INTERNATIONAL or CRYPTO, or the amount is
    above 5000 and the type is CRYPTO and it is night.  An amount that is
    missing or not a number is never rated HIGH. *)
Theorem riskLevel_high_iff
    (env : Env) (transactionType : string) (amount : JsNumber) :
  (riskLevel (calculateRiskScore env transactionType amount) = "HIGH"
   <-> (js_gt amount 10000 = true
        /\ (transactionType = "INTERNATIONAL" \/ transactionType = "CRYPTO"))
       \/ (js_gt amount 5000 = true /\ transactionType = "CRYPTO"
           /\ night env = true))
  /\ riskLevel (calculateRiskScore env transactionType NaN) <> "HIGH".
Proof.
  split.
  - risk_cases transactionType amount env;
      cbn; split; try discriminate; try tauto;
      try (intros [(? & [?|?]) | (? & ? & ?)]); try congruence;
      try discriminate.
  - rewrite calculateRiskScore_unfold. cbn [js_gt].
    destruct (String.eqb_spec transactionType "INTERNATIONAL"),
      (String.eqb_spec transactionType "CRYPTO"),
      ((getHours env <? 6) || (getHours env >? 22));
      try (exfalso; congruence); vm_compute; discriminate.
Qed.

(** ** What initiate leaves alone *)

(** X8. Initiate never creates or changes a profile, writes no audit event,
    and in Redis touches nothing but the session under its own fresh id:
    confirmation codes, challenges, lockout records and all other sessions
    stay as they were. *)
Theorem initiate_touches_only_its_session
    (env : Env) (phoneNumber transactionType : string) (amount : JsNumber)
    (w : World) :
  profiles (snd (run_initiate env phoneNumber transactionType amount w))
  = profiles w
  /\ auditLogs (snd (run_initiate env phoneNumber transactionType amount w))
     = auditLogs w
  /\ confirm (redis (snd (run_initiate env phoneNumber transactionType
                                       amount w)))
     = confirm (redis w)
  /\ challenge (redis (snd (run_initiate env phoneNumber transactionType
                                         amount w)))
     = challenge (redis w)
  /\ blocked (redis (snd (run_initiate env phoneNumber transactionType
                                       amount w)))
     = blocked (redis w)
  /\ forall k : string,
       k <> uuid env ->
       session (redis (snd (run_initiate env phoneNumber transactionType
                                         amount w))) !! k
       = session (redis w) !! k.
Proof.
  destruct (list_find (fun q => VoiceProfile.phoneNumber q = phoneNumber)
                      (profiles w)) as [[i p]|] eqn:Hf.
  - rewrite (initiate_known env _ _ _ w i p Hf). cbn zeta.
    destruct (call_result env); cbn [snd profiles auditLogs redis confirm
                                      challenge blocked session];
      split_and!; try reflexivity.
    intros k Hk. unfold setex. by rewrite lookup_insert_ne.
  - rewrite (initiate_unknown env _ _ _ w Hf). cbn zeta.
    destruct (call_result env); cbn [snd profiles auditLogs redis confirm
                                      challenge blocked session];
      split_and!; try reflexivity.
    intros k Hk. unfold setex. by rewrite lookup_insert_ne.
Qed.

(** ** Verification: the ends of the success path *)

(** X9. When the voice matches but the confirmation SMS cannot be sent, the
    caller hears the success sentence and then the system error; the
    failure count has already been reset and lastVerification set, and no
    audit event is written. *)
Theorem sms_failure_after_match
    (env : Env) (sid url : string) (w : World) (sd : Session.t) (i : nat)
    (p : VoiceProfile.t) :
  live (now env) (session (redis w)) sid = Some sd ->
  list_find (fun q => VoiceProfile.phoneNumber q = Session.phoneNumber sd)
            (profiles w) = Some (i, p) ->
  (85 # 100 < verifyVoicePrint env url (VoiceProfile.voicePrint p))%Q ->
  sms_ok env = false ->
  forall r, r = run_twiml (processVerification env sid url) w ->
  fst r = [Say VerificationOk; Say SystemErrorPrompt; Hangup]
  /\ outcome (fst r) = ERROR
  /\ profiles (snd r) = <[i := verified env p]> (profiles w)
  /\ failureCount (snd r) (Session.phoneNumber sd) = Some 0
  /\ audit_events w (snd r) = [].
Proof.
  intros Hs Hf Ht Hsms r ->. apply above_threshold_true in Ht.
  pose proof (processVerification_success env sid url w sd i p Hs Hf Ht)
    as Hrun. cbn zeta in Hrun. rewrite Hsms in Hrun. rewrite Hrun.
  cbn [fst snd profiles auditLogs].
  split_and!; try reflexivity.
  - change (Some 0)
      with (Some (VoiceProfile.verificationAttempts (verified env p))).
    eapply failureCount_replace;
      [exact Hf | exact (list_find_phone _ _ _ _ Hf) | reflexivity].
  - unfold audit_events. cbn [auditLogs]. apply drop_all.
Qed.

(** X10. A successful verification resets the failure count but leaves
    every lockout record as it is: a number locked before the call is
    locked after it, until the record expires. *)
Theorem success_keeps_lockout
    (env : Env) (sid url : string) (w : World) (sd : Session.t) (i : nat)
    (p : VoiceProfile.t) :
  live (now env) (session (redis w)) sid = Some sd ->
  list_find (fun q => VoiceProfile.phoneNumber q = Session.phoneNumber sd)
            (profiles w) = Some (i, p) ->
  (85 # 100 < verifyVoicePrint env url (VoiceProfile.voicePrint p))%Q ->
  forall w', w' = snd (run_twiml (processVerification env sid url) w) ->
  failureCount w' (Session.phoneNumber sd) = Some 0
  /\ redis w' = redis w
  /\ forall (env' : Env) (phoneNumber : string),
       isLocked env' w' phoneNumber = isLocked env' w phoneNumber.
Proof.
  intros Hs Hf Ht w' ->. apply above_threshold_true in Ht.
  pose proof (processVerification_success env sid url w sd i p Hs Hf Ht)
    as Hrun. cbn zeta in Hrun.
  assert (profiles (snd (run_twiml (processVerification env sid url) w))
          = <[i := verified env p]> (profiles w)
          /\ redis (snd (run_twiml (processVerification env sid url) w))
             = redis w) as [Hp Hr].
  { rewrite Hrun. destruct (sms_ok env); split; reflexivity. }
  split_and!.
  - rewrite (failureCount_replace w _ _ i p (verified env p) Hf
               (list_find_phone _ _ _ _ Hf) Hp). reflexivity.
  - exact Hr.
  - intros env' ph. unfold isLocked. rewrite Hr. reflexivity.
Qed.

(** X11. The lockout record written by a failure that brings the count to
    3 or more is live for the 3600 seconds after that failure and no
    longer, whatever record was there before: each such failure restarts
    the hour. *)
Theorem lockout_lasts_one_hour
    (env : Env) (sid url : string) (w : World) (sd : Session.t) (i : nat)
    (p : VoiceProfile.t) :
  live (now env) (session (redis w)) sid = Some sd ->
  list_find (fun q => VoiceProfile.phoneNumber q = Session.phoneNumber sd)
            (profiles w) = Some (i, p) ->
  (verifyVoicePrint env url (VoiceProfile.voicePrint p) <= 85 # 100)%Q ->
  2 <= VoiceProfile.verificationAttempts p ->
  forall (w' : World) (env' : Env),
    w' = snd (run_twiml (processVerification env sid url) w) ->
    isLocked env' w' (Session.phoneNumber sd)
    = (now env' <? now env + 3600000).
Proof.
  intros Hs Hf Ht Hge w' env' ->. apply above_threshold_false in Ht.
  rewrite (processVerification_failure env sid url w sd i p Hs Hf Ht).
  assert ((VoiceProfile.verificationAttempts p + 1 >=? 3) = true) as ->
    by (apply Z.geb_le; lia).
  unfold isLocked. cbn [snd redis blocked]. rewrite live_setex_at.
  change (3600 * 1000) with 3600000.
  destruct (now env' <? now env + 3600000); reflexivity.
Qed.

Lemma sms_failure_after_match_witness :
  fst (run_twiml (processVerification sms_down_request "S2" example_recording)
                 (enrolled_world 2))
  = [Say VerificationOk; Say SystemErrorPrompt; Hangup]
  /\ failureCount
       (snd (run_twiml (processVerification sms_down_request "S2"
                          example_recording) (enrolled_world 2)))
       example_phone = Some 0
  /\ audit_events (enrolled_world 2)
       (snd (run_twiml (processVerification sms_down_request "S2"
                          example_recording) (enrolled_world 2)))
     = [].
Proof.
  destruct (sms_failure_after_match sms_down_request "S2" example_recording
              (enrolled_world 2) example_session 0%nat (example_profile 2))
    with (r := run_twiml (processVerification sms_down_request "S2"
                            example_recording) (enrolled_world 2))
    as (Hr & _ & _ & Hc & Ha); try decide_closed.
  split_and!; [exact Hr | exact Hc | exact Ha].
Defined.

Lemma success_keeps_lockout_witness :
  isLocked (passing_request 5000) locked_world example_phone = true
  /\ failureCount
       (snd (run_twiml (processVerification (passing_request 4000) "S2"
                          example_recording) locked_world))
       example_phone = Some 0
  /\ isLocked (passing_request 5000)
       (snd (run_twiml (processVerification (passing_request 4000) "S2"
                          example_recording) locked_world))
       example_phone = true.
Proof.
  destruct (success_keeps_lockout (passing_request 4000) "S2"
              example_recording locked_world example_session 0%nat
              (failed (failed (failed (example_profile 0)))))
    with (w' := snd (run_twiml (processVerification (passing_request 4000)
                                  "S2" example_recording) locked_world))
    as (Hc & _ & Hl); try decide_closed.
  split_and!; [decide_closed | exact Hc |].
  rewrite Hl. decide_closed.
Defined.

Lemma lockout_lasts_one_hour_witness :
  isLocked (failing_request (1000 + 3599999))
    (snd (run_twiml (processVerification (failing_request 1000) "S2"
                       example_recording) (enrolled_world 2)))
    example_phone = true
  /\ isLocked (failing_request (1000 + 3600000))
       (snd (run_twiml (processVerification (failing_request 1000) "S2"
                          example_recording) (enrolled_world 2)))
       example_phone = false.
Proof.
  split.
  - rewrite (lockout_lasts_one_hour (failing_request 1000) "S2"
               example_recording (enrolled_world 2) example_session 0%nat
               (example_profile 2)); try decide_closed.
  - rewrite (lockout_lasts_one_hour (failing_request 1000) "S2"
               example_recording (enrolled_world 2) example_session 0%nat
               (example_profile 2)); try decide_closed.
Defined.

(** ** Sessions: from initiate to the callback *)

Lemma initiate_session (env : Env) (ph ty : string) (amt : JsNumber)
    (w : World) (callSid : string) :
  call_result env = Some callSid ->
  exists sd,
    session (redis (snd (run_initiate env ph ty amt w)))
    = setex (now env) (uuid env) 3600 sd (session (redis w))
    /\ Session.phoneNumber sd = ph
    /\ Session.type sd
       = match list_find (fun q => VoiceProfile.phoneNumber q = ph)
                         (profiles w) with
         | Some _ => VERIFICATION
         | None => ENROLLMENT
         end.
Proof.
  intros Hc.
  destruct (list_find (fun q => VoiceProfile.phoneNumber q = ph) (profiles w))
    as [[i p]|] eqn:Hf.
  - rewrite (initiate_known env ph ty amt w i p Hf). cbn zeta. rewrite Hc.
    eexists. cbn [snd redis session]. split_and!; reflexivity.
  - rewrite (initiate_unknown env ph ty amt w Hf). cbn zeta. rewrite Hc.
    eexists. cbn [snd redis session]. split_and!; reflexivity.
Qed.

(** X12. The session that initiate opens can be read under its id for the
    3600 seconds that follow and no longer.  A recording that comes back
    after that is answered with the error prompt by process-verification
    and by process-enrollment alike, and changes neither the profiles, nor
    the audit log, nor Redis. *)
Theorem session_expires_after_one_hour
    (env0 env : Env) (phoneNumber transactionType : string)
    (amount : JsNumber) (w : World) (callSid url : string)
    (From FromCarrier : option string) :
  call_result env0 = Some callSid ->
  now env0 + 3600000 <= now env ->
  forall w1 rv re,
    w1 = snd (run_initiate env0 phoneNumber transactionType amount w) ->
    rv = run_twiml (processVerification env (uuid env0) url) w1 ->
    re = run_twiml (processEnrollment env (uuid env0) url From FromCarrier)
                   w1 ->
    (forall t,
       Session.phoneNumber <$> live t (session (redis w1)) (uuid env0)
       = if t <? now env0 + 3600000 then Some phoneNumber else None)
    /\ (fst rv = [Say SystemErrorPrompt; Hangup]
        /\ profiles (snd rv) = profiles w1
        /\ auditLogs (snd rv) = auditLogs w1
        /\ redis (snd rv) = redis w1)
    /\ (fst re = [Say EnrollmentProblem; Hangup]
        /\ profiles (snd re) = profiles w1
        /\ auditLogs (snd re) = auditLogs w1
        /\ redis (snd re) = redis w1).
Proof.
  intros Hc Hlate w1 rv re -> -> ->.
  destruct (initiate_session env0 phoneNumber transactionType amount w
              callSid Hc) as (sd & Hsess & Hph & _).
  assert (forall t,
            live t (session (redis (snd (run_initiate env0 phoneNumber
                                           transactionType amount w))))
                 (uuid env0)
            = if t <? now env0 + 3600000 then Some sd else None) as Hlive.
  { intros t. rewrite Hsess. apply live_setex_at. }
  assert (live (now env)
            (session (redis (snd (run_initiate env0 phoneNumber
                                    transactionType amount w))))
            (uuid env0) = None) as Hnone.
  { rewrite Hlive.
    destruct (now env <? now env0 + 3600000) eqn:Hlt; [|reflexivity].
    apply Z.ltb_lt in Hlt. lia. }
  split; [|split].
  - intros t. rewrite Hlive.
    destruct (t <? now env0 + 3600000); cbn; congruence.
  - rewrite processVerification_no_session by exact Hnone.
    split_and!; reflexivity.
  - rewrite processEnrollment_no_session by exact Hnone.
    split_and!; reflexivity.
Qed.

Lemma session_expires_after_one_hour_witness :
  Session.phoneNumber
    <$> live (noon + 3599999) (session (redis (snd transfer_5000_at_noon)))
             "S2"
  = Some example_phone
  /\ fst (run_twiml (processVerification (passing_request 3600000) "S2"
                       example_recording)
                    (snd transfer_5000_at_noon))
     = [Say SystemErrorPrompt; Hangup].
Proof.
  destruct (session_expires_after_one_hour
              (request noon "S2" (1 # 2) (Some "CA2"))
              (passing_request 3600000) example_phone "TRANSFER" (Num 5000)
              (mkWorld no_redis [example_profile 0] [] []) "CA2"
              example_recording None None eq_refl)
    with (w1 := snd transfer_5000_at_noon)
         (rv := run_twiml (processVerification (passing_request 3600000) "S2"
                             example_recording)
                          (snd transfer_5000_at_noon))
         (re := run_twiml (processEnrollment (passing_request 3600000) "S2"
                             example_recording None None)
                          (snd transfer_5000_at_noon))
    as (Hl & (Hv & _) & _); try decide_closed.
  split; [rewrite Hl; reflexivity | exact Hv].
Defined.

(** X13. Process-enrollment never changes or removes a profile: every
    profile stored before the call is stored after it, the same in every
    field, and at most one profile is added, whose userId is the uuid of
    the request and whose failure count is 0.  (Nothing is said of the
    order in which the profiles are kept.) *)
Theorem enrollment_changes_no_existing_profile
    (env : Env) (sid url : string) (From FromCarrier : option string)
    (w : World) :
  (forall p,
     p ∈ profiles w ->
     p ∈ profiles (snd (run_twiml (processEnrollment env sid url From
                                    FromCarrier) w)))
  /\ (forall q,
        q ∈ profiles (snd (run_twiml (processEnrollment env sid url From
                                       FromCarrier) w)) ->
        q ∈ profiles w
        \/ (VoiceProfile.userId q = uuid env
            /\ VoiceProfile.verificationAttempts q = 0))
  /\ (length (profiles (snd (run_twiml (processEnrollment env sid url From
                                          FromCarrier) w)))
      <= S (length (profiles w)))%nat.
Proof.
  destruct (live (now env) (session (redis w)) sid) as [sd|] eqn:Hs.
  - destruct (required_ok
                (new_profile env (Session.phoneNumber sd) From FromCarrier)
              && negb (userId_taken (uuid env) (profiles w))) eqn:Hok.
    + rewrite (processEnrollment_saved env sid url _ _ w sd Hs Hok).
      cbn [snd profiles]. split_and!.
      * intros p Hp. apply elem_of_app. by left.
      * intros q Hq. apply elem_of_app in Hq as [Hq|Hq]; [by left|].
        right. apply list_elem_of_singleton in Hq as ->. split; reflexivity.
      * rewrite length_app. cbn. lia.
    + rewrite (processEnrollment_rejected env sid url _ _ w sd Hs Hok).
      cbn [snd profiles]. split_and!; [auto | auto | lia].
  - rewrite (processEnrollment_no_session env sid url _ _ w Hs).
    cbn [snd profiles]. split_and!; [auto | auto | lia].
Qed.

Lemma enrollment_changes_no_existing_profile_witness :
  new_profile (request (noon + 1000) "u-1" (1 # 2) None) example_phone
              (Some example_phone) None
  ∈ profiles (snd replayed_enrollment).
Proof.
  apply (enrollment_changes_no_existing_profile
           (request (noon + 2000) "u-2" (1 # 2) None) "S1" example_recording
           (Some example_phone) None after_first_enrollment).
  vm_compute. left.
Defined.

(** X14. From enrollment to verification.  For a number without a profile,
    initiate opens an ENROLLMENT session; when the recording comes back
    within the hour (with a fresh uuid), the profile is stored with no
    failure counted; and the next initiate for the number opens a
    VERIFICATION session and answers with the risk level of the
    transaction. *)
Theorem enrollment_then_verification
    (env0 env1 env2 : Env) (phoneNumber ty0 ty2 url : string)
    (amt0 amt2 : JsNumber) (From FromCarrier : option string) (w : World)
    (callSid0 callSid2 : string) :
  list_find (fun q => VoiceProfile.phoneNumber q = phoneNumber) (profiles w)
  = None ->
  call_result env0 = Some callSid0 ->
  now env1 < now env0 + 3600000 ->
  phoneNumber <> "" ->
  uuid env1 <> "" ->
  bcrypt_hash env1 <> "" ->
  uuid env1 ∉ userIds (profiles w) ->
  call_result env2 = Some callSid2 ->
  forall r0 r1 r2,
    r0 = run_initiate env0 phoneNumber ty0 amt0 w ->
    r1 = run_twiml (processEnrollment env1 (uuid env0) url From FromCarrier)
                   (snd r0) ->
    r2 = run_initiate env2 phoneNumber ty2 amt2 (snd r1) ->
    fst r0 = Some (EnrollmentStarted (uuid env0))
    /\ fst r1 = [Say (ProfileCreated (confirmationCode env1));
                 Say ThanksEnrollment; Hangup]
    /\ failureCount (snd r1) phoneNumber = Some 0
    /\ fst r2 = Some (VerificationStarted (uuid env2)
                        (riskLevel (calculateRiskScore env2 ty2 amt2)))
    /\ exists sd,
         live (now env2) (session (redis (snd r2))) (uuid env2) = Some sd
         /\ Session.type sd = VERIFICATION
         /\ Session.phoneNumber sd = phoneNumber.
Proof.
  intros Hnone Hc0 Hin Hph Hid Hvp Hfresh Hc2 r0 r1 r2 -> -> ->.
  rewrite (initiate_unknown env0 phoneNumber ty0 amt0 w Hnone).
  cbn zeta. rewrite Hc0. cbn [fst snd].
  set (sd0 := Session.mk phoneNumber callSid0 ENROLLMENT None None None
                         (now env0)).
  set (w0 := mkWorld _ _ _ _).
  assert (live (now env1) (session (redis w0)) (uuid env0) = Some sd0) as Hs.
  { subst w0. cbn [redis session]. rewrite live_setex_at.
    change (3600 * 1000) with 3600000.
    apply Z.ltb_lt in Hin. rewrite Hin. reflexivity. }
  assert (required_ok (new_profile env1 (Session.phoneNumber sd0) From
                                   FromCarrier)
          && negb (userId_taken (uuid env1) (profiles w0)) = true) as Hok.
  { apply (insert_allowed_iff
             (new_profile env1 (Session.phoneNumber sd0) From FromCarrier)).
    cbn. auto. }
  rewrite (processEnrollment_saved env1 (uuid env0) url From FromCarrier w0
             sd0 Hs Hok).
  cbn [fst snd]. set (w1 := mkWorld _ _ _ _).
  assert (list_find (fun q => VoiceProfile.phoneNumber q = phoneNumber)
            (profiles w1)
          = Some (length (profiles w),
                  new_profile env1 phoneNumber From FromCarrier)) as Hf.
  { subst w1 w0. cbn [profiles Session.phoneNumber sd0].
    rewrite list_find_app_r by exact Hnone. cbn.
    rewrite decide_True by reflexivity. reflexivity. }
  split; [reflexivity|]. split; [reflexivity|]. split.
  { unfold failureCount. rewrite Hf. reflexivity. }
  rewrite (initiate_known env2 phoneNumber ty2 amt2 w1 _ _ Hf).
  cbn zeta. rewrite Hc2. cbn [fst snd redis session].
  split; [reflexivity|].
  eexists. rewrite live_setex by lia. split_and!; reflexivity.
Qed.

Lemma enrollment_then_verification_witness :
  fst (run_initiate (request noon "S1" (1 # 2) (Some "CA1")) example_phone
                    "TRANSFER" (Num 5000) fresh_world)
  = Some (EnrollmentStarted "S1")
  /\ fst (run_initiate (request (noon + 90000) "S2" (1 # 2) (Some "CA2"))
            example_phone "CRYPTO" (Num 12000)
            (snd (run_twiml
                    (processEnrollment
                       (request (noon + 60000) "u-1" (1 # 2) None) "S1"
                       example_recording (Some example_phone) None)
                    (snd (run_initiate
                            (request noon "S1" (1 # 2) (Some "CA1"))
                            example_phone "TRANSFER" (Num 5000)
                            fresh_world)))))
     = Some (VerificationStarted "S2" "HIGH").
Proof.
  destruct (enrollment_then_verification
              (request noon "S1" (1 # 2) (Some "CA1"))
              (request (noon + 60000) "u-1" (1 # 2) None)
              (request (noon + 90000) "S2" (1 # 2) (Some "CA2"))
              example_phone "TRANSFER" "CRYPTO" example_recording
              (Num 5000) (Num 12000) (Some example_phone) None fresh_world
              "CA1" "CA2")
    with (r0 := run_initiate (request noon "S1" (1 # 2) (Some "CA1"))
                  example_phone "TRANSFER" (Num 5000) fresh_world)
         (r1 := run_twiml
                  (processEnrollment
                     (request (noon + 60000) "u-1" (1 # 2) None) "S1"
                     example_recording (Some example_phone) None)
                  (snd (run_initiate (request noon "S1" (1 # 2) (Some "CA1"))
                          example_phone "TRANSFER" (Num 5000) fresh_world)))
         (r2 := run_initiate (request (noon + 90000) "S2" (1 # 2) (Some "CA2"))
                  example_phone "CRYPTO" (Num 12000)
                  (snd (run_twiml
                          (processEnrollment
                             (request (noon + 60000) "u-1" (1 # 2) None) "S1"
                             example_recording (Some example_phone) None)
                          (snd (run_initiate
                                  (request noon "S1" (1 # 2) (Some "CA1"))
                                  example_phone "TRANSFER" (Num 5000)
                                  fresh_world)))))
    as (H0 & _ & _ & H2 & _); try decide_closed.
  - apply not_elem_of_nil.
  - split; [exact H0 | exact H2].
Defined.

(** ** What every request preserves *)

Lemma fmap_replace {B : Type} (f : VoiceProfile.t -> B)
    (ps : list VoiceProfile.t) (i : nat) (p q : VoiceProfile.t) :
  ps !! i = Some p -> f q = f p -> f <$> <[i := q]> ps = f <$> ps.
Proof.
  intros Hi Hq. rewrite list_fmap_insert, Hq.
  apply list_insert_id. by rewrite list_lookup_fmap, Hi.
Qed.

Lemma list_find_lookup (phoneNumber : string) (ps : list VoiceProfile.t)
    (i : nat) (p : VoiceProfile.t) :
  list_find (fun x => VoiceProfile.phoneNumber x = phoneNumber) ps
  = Some (i, p) ->
  ps !! i = Some p.
Proof. intros Hf. by apply list_find_Some in Hf as (Hi & _ & _). Qed.

Lemma list_find_enrolled (phoneNumber : string) (ps : list VoiceProfile.t)
    (i : nat) (p : VoiceProfile.t) :
  list_find (fun x => VoiceProfile.phoneNumber x = phoneNumber) ps
  = Some (i, p) ->
  phoneNumber ∈ phoneNumbers ps.
Proof.
  intros Hf. apply list_find_Some in Hf as (Hi & Hp & _).
  unfold phoneNumbers. apply list_elem_of_fmap. exists p.
  split; [by symmetry|]. by eapply list_elem_of_lookup_2.
Qed.

Lemma calculateRiskScore_bounds (env : Env) (ty : string) (a : JsNumber) :
  0 <= calculateRiskScore env ty a <= 100.
Proof.
  rewrite calculateRiskScore_unfold.
  destruct (js_gt a 5000), (js_gt a 10000), (String.eqb ty "INTERNATIONAL"),
    (String.eqb ty "CRYPTO"), ((getHours env <? 6) || (getHours env >? 22));
    lia.
Qed.

Lemma continues_refl (w : World) : continues w w.
Proof. unfold continues. split_and!; reflexivity. Qed.

Lemma continues_trans (w1 w2 w3 : World) :
  continues w1 w2 -> continues w2 w3 -> continues w1 w3.
Proof.
  intros (A1 & H1 & P1) (A2 & H2 & P2).
  unfold continues. split_and!; etrans; eassumption.
Qed.

Ltac continued :=
  unfold continues;
  cbn [snd auditLogs history profiles];
  split_and!;
  first [ reflexivity
        | apply prefix_app_r; reflexivity
        | rewrite fmap_app; apply prefix_app_r; reflexivity
        | erewrite fmap_replace;
            [reflexivity | eapply list_find_lookup; eassumption
            | reflexivity] ].

Lemma initiate_continues (env : Env) (ph ty : string) (amt : JsNumber)
    (w : World) :
  continues w (snd (run_initiate env ph ty amt w)).
Proof.
  destruct (list_find (fun q => VoiceProfile.phoneNumber q = ph) (profiles w))
    as [[i p]|] eqn:Hf.
  - rewrite (initiate_known env ph ty amt w i p Hf). cbn zeta.
    destruct (call_result env); continued.
  - rewrite (initiate_unknown env ph ty amt w Hf). cbn zeta.
    destruct (call_result env); continued.
Qed.

Lemma verify_continues (env : Env) (sid : string) (w : World) :
  continues w (snd (run_twiml (verify env sid) w)).
Proof. rewrite verify_world. unfold with_challenge, set_redis. continued. Qed.

Lemma processEnrollment_continues (env : Env) (sid url : string)
    (From FromCarrier : option string) (w : World) :
  continues w (snd (run_twiml (processEnrollment env sid url From FromCarrier)
                              w)).
Proof.
  destruct (live (now env) (session (redis w)) sid) as [sd|] eqn:Hs.
  - destruct (required_ok
                (new_profile env (Session.phoneNumber sd) From FromCarrier)
              && negb (userId_taken (uuid env) (profiles w))) eqn:Hok.
    + rewrite (processEnrollment_saved env sid url _ _ w sd Hs Hok).
      continued.
    + rewrite (processEnrollment_rejected env sid url _ _ w sd Hs Hok).
      continued.
  - rewrite (processEnrollment_no_session env sid url _ _ w Hs). continued.
Qed.

Lemma processVerification_continues (env : Env) (sid url : string)
    (w : World) :
  continues w (snd (run_twiml (processVerification env sid url) w)).
Proof.
  destruct (live (now env) (session (redis w)) sid) as [sd|] eqn:Hs.
  2:{ rewrite (processVerification_no_session env sid url w Hs). continued. }
  destruct (list_find
              (fun q => VoiceProfile.phoneNumber q = Session.phoneNumber sd)
              (profiles w)) as [[i p]|] eqn:Hf.
  2:{ rewrite (processVerification_no_profile env sid url w sd Hs Hf).
      continued. }
  destruct (above_threshold
              (verifyVoicePrint env url (VoiceProfile.voicePrint p))) eqn:Ht.
  - pose proof (processVerification_success env sid url w sd i p Hs Hf Ht)
      as Hrun. cbn zeta in Hrun. rewrite Hrun.
    destruct (sms_ok env); continued.
  - rewrite (processVerification_failure env sid url w sd i p Hs Hf Ht).
    destruct (_ >=? 3); continued.
Qed.

Lemma serve_continues (r : Request) (w : World) : continues w (serve r w).
Proof.
  destruct r; cbn [serve].
  - apply initiate_continues.
  - apply verify_continues.
  - apply processEnrollment_continues.
  - apply processVerification_continues.
Qed.

Lemma serve_all_snoc (rs : list Request) (r : Request) (w : World) :
  serve_all (rs ++ [r]) w = serve r (serve_all rs w).
Proof. unfold serve_all. by rewrite foldl_app. Qed.

(** X15. No request takes anything away.  Through any sequence of
    requests the audit log is only appended to, and the profiles that exist
    stay where they are with their userId, phone number, voice print and
    enrollment date: no profile is deleted or reassigned, only its failure
    count and lastVerification change. *)
Theorem requests_never_delete (rs : list Request) (w : World) :
  auditLogs w `prefix_of` auditLogs (serve_all rs w)
  /\ (identity <$> profiles w)
     `prefix_of` (identity <$> profiles (serve_all rs w))
  /\ forall i p,
       profiles w !! i = Some p ->
       exists q,
         profiles (serve_all rs w) !! i = Some q
         /\ VoiceProfile.userId q = VoiceProfile.userId p
         /\ VoiceProfile.phoneNumber q = VoiceProfile.phoneNumber p
         /\ VoiceProfile.voicePrint q = VoiceProfile.voicePrint p.
Proof.
  assert (continues w (serve_all rs w)) as (Ha & _ & Hp).
  { induction rs as [|r rs IH] using rev_ind.
    - apply continues_refl.
    - rewrite serve_all_snoc. eapply continues_trans; [exact IH|].
      apply serve_continues. }
  split_and!; [exact Ha | exact Hp |].
  intros i p Hi.
  assert ((identity <$> profiles (serve_all rs w)) !! i = Some (identity p))
    as Hq.
  { eapply prefix_lookup_Some; [|exact Hp].
    by rewrite list_lookup_fmap, Hi. }
  rewrite list_lookup_fmap in Hq.
  destruct (profiles (serve_all rs w) !! i) as [q|]; [|discriminate].
  exists q. injection Hq as Hq. unfold identity in Hq.
  split; [reflexivity|]. split_and!; congruence.
Qed.

Lemma requests_never_delete_witness :
  exists q,
    profiles (serve_all [ReqProcessVerification (failing_request 1000) "S2"
                           example_recording;
                         ReqProcessEnrollment
                           (request (noon + 2000) "u-2" (1 # 2) None) "S2"
                           example_recording None None]
                        (enrolled_world 0)) !! 0%nat
    = Some q
    /\ VoiceProfile.userId q = "u-1"
    /\ VoiceProfile.phoneNumber q = example_phone
    /\ VoiceProfile.voicePrint q
       = VoiceProfile.voicePrint (example_profile 0).
Proof.
  exact (proj2 (proj2 (requests_never_delete _ (enrolled_world 0)))
               0%nat (example_profile 0) eq_refl).
Defined.

Lemma session_ok_phones (ps ps' : list VoiceProfile.t) (s : Session.t) :
  (forall ph, ph ∈ phoneNumbers ps -> ph ∈ phoneNumbers ps') ->
  session_ok ps s -> session_ok ps' s.
Proof.
  intros Hsub. unfold session_ok. destruct (Session.type s); [done|].
  intros [Hr Hph]. split; [exact Hr | by apply Hsub].
Qed.

(** A world that agrees with a consistent one up to the history, the
    confirmation codes and the challenges is consistent. *)
Lemma consistent_same (w w' : World) :
  profiles w' = profiles w ->
  auditLogs w' = auditLogs w ->
  session (redis w') = session (redis w) ->
  blocked (redis w') = blocked (redis w) ->
  consistent w -> consistent w'.
Proof.
  intros Hp Ha Hs Hb [I1 I2 I3 I4 I5].
  constructor; rewrite ?Hp, ?Ha, ?Hs, ?Hb; assumption.
Qed.

Lemma consistent_open_session (w : World) (t : Z) (k : string) (ttl : Z)
    (sd : Session.t) (c : gmap string (Z * Z)) (ch : gmap string (Z * Z))
    (h : list Effect) :
  session_ok (profiles w) sd ->
  consistent w ->
  consistent
    (mkWorld (mkRedis (setex t k ttl sd (session (redis w))) c ch
                      (blocked (redis w)))
             (profiles w) (auditLogs w) h).
Proof.
  intros Hsd [I1 I2 I3 I4 I5].
  constructor; cbn [profiles auditLogs redis session blocked]; try assumption.
  unfold setex. apply map_Forall_insert_2; assumption.
Qed.

Lemma consistent_enroll (w : World) (p : VoiceProfile.t) (a : AuditLog.t)
    (c : gmap string (Z * Z)) (h : list Effect) :
  required_ok p && negb (userId_taken (VoiceProfile.userId p) (profiles w))
  = true ->
  0 <= VoiceProfile.verificationAttempts p ->
  audit_ok a ->
  consistent w ->
  consistent
    (mkWorld (mkRedis (session (redis w)) c (challenge (redis w))
                      (blocked (redis w)))
             (profiles w ++ [p]) (auditLogs w ++ [a]) h).
Proof.
  intros Hok H0 Ha [I1 I2 I3 I4 I5].
  apply andb_true_iff in Hok as [Hreq Hfree].
  apply negb_true_iff, userId_taken_false in Hfree.
  assert (forall ph, ph ∈ phoneNumbers (profiles w) ->
                     ph ∈ phoneNumbers (profiles w ++ [p])) as Hsub.
  { intros ph Hph. unfold phoneNumbers in *. rewrite fmap_app.
    apply elem_of_app. by left. }
  constructor; cbn [profiles auditLogs redis session blocked].
  - unfold userIds in *. rewrite fmap_app. cbn.
    apply NoDup_app. split_and!; [exact I1 | | apply NoDup_singleton].
    intros u Hu Hin. apply list_elem_of_singleton in Hin as ->. auto.
  - apply Forall_app. split; [exact I2|].
    apply Forall_singleton. split; assumption.
  - apply Forall_app. split; [exact I3|]. by apply Forall_singleton.
  - eapply map_Forall_impl; [exact I4|]. cbn. intros _ se Hse.
    eapply session_ok_phones; eassumption.
  - eapply map_Forall_impl; [exact I5|]. cbn. intros ph ve [Hv Hph].
    split; [exact Hv | by apply Hsub].
Qed.

(** Replacing the profile that [findOne] returned by one with the same
    userId, phone number and voice print and a count that is not negative,
    with more audit events and another content of the lockout records. *)
Lemma consistent_update (w : World) (phoneNumber : string) (i : nat)
    (p q : VoiceProfile.t) (als : list AuditLog.t)
    (b : gmap string (string * Z)) (h : list Effect) :
  list_find (fun x => VoiceProfile.phoneNumber x = phoneNumber) (profiles w)
  = Some (i, p) ->
  identity q = identity p ->
  0 <= VoiceProfile.verificationAttempts q ->
  Forall audit_ok als ->
  map_Forall (fun ph (ve : string * Z) =>
                ve.1 = "true" /\ ph ∈ phoneNumbers (profiles w)) b ->
  consistent w ->
  consistent
    (mkWorld (mkRedis (session (redis w)) (confirm (redis w))
                      (challenge (redis w)) b)
             (<[i := q]> (profiles w)) (auditLogs w ++ als) h).
Proof.
  intros Hf Hid H0 Hals Hb [I1 I2 I3 I4 I5].
  pose proof (list_find_lookup _ _ _ _ Hf) as Hi.
  unfold identity in Hid. injection Hid as Hu Hph Hvp _.
  assert (phoneNumbers (<[i := q]> (profiles w)) = phoneNumbers (profiles w))
    as Hphones by (unfold phoneNumbers; by eapply fmap_replace).
  constructor; cbn [profiles auditLogs redis session blocked].
  - unfold userIds. by erewrite fmap_replace.
  - apply Forall_insert; [exact I2|].
    assert (profile_ok p) as [Hreq _]
      by (eapply Forall_lookup_1; eassumption).
    split; [|exact H0].
    unfold required_ok in *. by rewrite Hu, Hph, Hvp.
  - apply Forall_app. split; assumption.
  - eapply map_Forall_impl; [exact I4|]. cbn. intros _ se Hse.
    eapply session_ok_phones; [|exact Hse]. intros ph. by rewrite Hphones.
  - eapply map_Forall_impl; [exact Hb|]. cbn. intros ph ve [Hv Hin].
    split; [exact Hv | by rewrite Hphones].
Qed.

Lemma initiate_consistent (env : Env) (ph ty : string) (amt : JsNumber)
    (w : World) :
  consistent w -> consistent (snd (run_initiate env ph ty amt w)).
Proof.
  intros C.
  destruct (list_find (fun q => VoiceProfile.phoneNumber q = ph) (profiles w))
    as [[i p]|] eqn:Hf.
  - rewrite (initiate_known env ph ty amt w i p Hf). cbn zeta.
    destruct (call_result env); cbn [snd].
    + apply consistent_open_session; [|exact C].
      unfold session_ok. cbn. split.
      * eexists. split; [reflexivity | apply calculateRiskScore_bounds].
      * eapply list_find_enrolled, Hf.
    + eapply consistent_same; [..|exact C]; reflexivity.
  - rewrite (initiate_unknown env ph ty amt w Hf). cbn zeta.
    destruct (call_result env); cbn [snd].
    + apply consistent_open_session; [reflexivity | exact C].
    + eapply consistent_same; [..|exact C]; reflexivity.
Qed.

Lemma verify_consistent (env : Env) (sid : string) (w : World) :
  consistent w -> consistent (snd (run_twiml (verify env sid) w)).
Proof.
  intros C. rewrite verify_world.
  eapply consistent_same; [..|exact C]; reflexivity.
Qed.

Lemma processEnrollment_consistent (env : Env) (sid url : string)
    (From FromCarrier : option string) (w : World) :
  consistent w ->
  consistent (snd (run_twiml (processEnrollment env sid url From FromCarrier)
                             w)).
Proof.
  intros C.
  destruct (live (now env) (session (redis w)) sid) as [sd|] eqn:Hs.
  - destruct (required_ok
                (new_profile env (Session.phoneNumber sd) From FromCarrier)
              && negb (userId_taken (uuid env) (profiles w))) eqn:Hok.
    + rewrite (processEnrollment_saved env sid url _ _ w sd Hs Hok).
      cbn [snd]. apply consistent_enroll; try assumption.
      * cbn. lia.
      * split; [reflexivity | left; reflexivity].
    + rewrite (processEnrollment_rejected env sid url _ _ w sd Hs Hok).
      eapply consistent_same; [..|exact C]; reflexivity.
  - rewrite (processEnrollment_no_session env sid url _ _ w Hs).
    eapply consistent_same; [..|exact C]; reflexivity.
Qed.

Lemma processVerification_consistent (env : Env) (sid url : string)
    (w : World) :
  consistent w ->
  consistent (snd (run_twiml (processVerification env sid url) w)).
Proof.
  intros C.
  destruct (live (now env) (session (redis w)) sid) as [sd|] eqn:Hs.
  2:{ rewrite (processVerification_no_session env sid url w Hs).
      eapply consistent_same; [..|exact C]; reflexivity. }
  destruct (list_find
              (fun q => VoiceProfile.phoneNumber q = Session.phoneNumber sd)
              (profiles w)) as [[i p]|] eqn:Hf.
  2:{ rewrite (processVerification_no_profile env sid url w sd Hs Hf).
      eapply consistent_same; [..|exact C]; reflexivity. }
  assert (0 <= VoiceProfile.verificationAttempts p) as Hp.
  { destruct C as [_ I2 _ _ _].
    apply (Forall_lookup_1 _ _ i p I2 (list_find_lookup _ _ _ _ Hf)). }
  destruct (above_threshold
              (verifyVoicePrint env url (VoiceProfile.voicePrint p))) eqn:Ht.
  - pose proof (processVerification_success env sid url w sd i p Hs Hf Ht)
      as Hrun. cbn zeta in Hrun. rewrite Hrun.
    destruct (sms_ok env); cbn [snd].
    + destruct (redis w) as [s c ch b] eqn:Hr.
      replace s with (session (redis w)) by (rewrite Hr; reflexivity).
      replace c with (confirm (redis w)) by (rewrite Hr; reflexivity).
      replace ch with (challenge (redis w)) by (rewrite Hr; reflexivity).
      eapply consistent_update; try eassumption; try reflexivity.
      * apply Forall_singleton. split; [reflexivity | right; reflexivity].
      * destruct C as [_ _ _ _ I5]. rewrite Hr in I5. exact I5.
    + destruct (redis w) as [s c ch b] eqn:Hr.
      replace s with (session (redis w)) by (rewrite Hr; reflexivity).
      replace c with (confirm (redis w)) by (rewrite Hr; reflexivity).
      replace ch with (challenge (redis w)) by (rewrite Hr; reflexivity).
      rewrite <- (app_nil_r (auditLogs w)).
      eapply consistent_update; try eassumption; try reflexivity.
      * apply Forall_nil_2.
      * destruct C as [_ _ _ _ I5]. rewrite Hr in I5. exact I5.
  - rewrite (processVerification_failure env sid url w sd i p Hs Hf Ht).
    destruct (_ >=? 3); cbn [snd].
    + rewrite <- (app_nil_r (auditLogs w)).
      eapply consistent_update; try eassumption; try reflexivity.
      * cbn. lia.
      * apply Forall_nil_2.
      * unfold setex. apply map_Forall_insert_2.
        -- split; [reflexivity | eapply list_find_enrolled, Hf].
        -- destruct C as [_ _ _ _ I5]. exact I5.
    + destruct (redis w) as [s c ch b] eqn:Hr.
      replace s with (session (redis w)) by (rewrite Hr; reflexivity).
      replace c with (confirm (redis w)) by (rewrite Hr; reflexivity).
      replace ch with (challenge (redis w)) by (rewrite Hr; reflexivity).
      rewrite <- (app_nil_r (auditLogs w)).
      eapply consistent_update; try eassumption; try reflexivity.
      * cbn. lia.
      * apply Forall_nil_2.
      * destruct C as [_ _ _ _ I5]. rewrite Hr in I5. exact I5.
Qed.

Lemma serve_consistent (r : Request) (w : World) :
  consistent w -> consistent (serve r w).
Proof.
  destruct r; cbn [serve].
  - apply initiate_consistent.
  - apply verify_consistent.
  - apply processEnrollment_consistent.
  - apply processVerification_consistent.
Qed.

Lemma serve_all_consistent (rs : list Request) (w : World) :
  consistent w -> consistent (serve_all rs w).
Proof.
  intros C. induction rs as [|r rs IH] using rev_ind; [exact C|].
  rewrite serve_all_snoc. by apply serve_consistent.
Qed.

Lemma fresh_world_consistent : consistent fresh_world.
Proof.
  constructor; cbn.
  - apply NoDup_nil_2.
  - apply Forall_nil_2.
  - apply Forall_nil_2.
  - apply map_Forall_empty.
  - apply map_Forall_empty.
Qed.

(** X16. In every world reached from the empty one by any sequence of
    requests, no two profiles share a userId, every profile has a non-empty
    userId, phone number and voice print, and no failure count is
    negative. *)
Theorem reachable_profiles_well_formed (rs : list Request) :
  NoDup (userIds (profiles (serve_all rs fresh_world)))
  /\ Forall (fun p => VoiceProfile.userId p <> ""
                      /\ VoiceProfile.phoneNumber p <> ""
                      /\ VoiceProfile.voicePrint p <> ""
                      /\ 0 <= VoiceProfile.verificationAttempts p)
            (profiles (serve_all rs fresh_world)).
Proof.
  destruct (serve_all_consistent rs fresh_world fresh_world_consistent)
    as [I1 I2 _ _ _].
  split; [exact I1|].
  eapply Forall_impl; [exact I2|]. intros p [Hreq H0].
  unfold required_ok in Hreq.
  rewrite !andb_true_iff, !negb_true_iff, !String.eqb_neq in Hreq.
  tauto.
Qed.

(** X17. In every world reached from the empty one, the audit log holds
    successes only: each event has the result SUCCESS and the action
    ENROLLMENT_SUCCESS or VERIFICATION_SUCCESS.  No request ever records a
    failure, a lockout or a system error. *)
Theorem reachable_audit_log_only_successes (rs : list Request) :
  Forall (fun a => AuditLog.result a = "SUCCESS"
                   /\ (AuditLog.action a = "ENROLLMENT_SUCCESS"
                       \/ AuditLog.action a = "VERIFICATION_SUCCESS"))
         (auditLogs (serve_all rs fresh_world)).
Proof.
  destruct (serve_all_consistent rs fresh_world fresh_world_consistent)
    as [_ _ I3 _ _].
  exact I3.
Qed.

(** X18. In every world reached from the empty one, a stored ENROLLMENT
    session carries no risk score, a stored VERIFICATION session carries a
    risk score between 0 and 100 and the phone number of an enrolled
    profile, and every lockout record holds 'true' for the phone number of
    an enrolled profile. *)
Theorem reachable_sessions_and_lockouts (rs : list Request) :
  (forall sid sd expires,
     session (redis (serve_all rs fresh_world)) !! sid = Some (sd, expires) ->
     match Session.type sd with
     | ENROLLMENT => Session.riskScore sd = None
     | VERIFICATION =>
         (exists r, Session.riskScore sd = Some r /\ 0 <= r <= 100)
         /\ Session.phoneNumber sd
            ∈ phoneNumbers (profiles (serve_all rs fresh_world))
     end)
  /\ (forall ph v expires,
        blocked (redis (serve_all rs fresh_world)) !! ph = Some (v, expires) ->
        v = "true"
        /\ ph ∈ phoneNumbers (profiles (serve_all rs fresh_world))).
Proof.
  destruct (serve_all_consistent rs fresh_world fresh_world_consistent)
    as [_ _ _ I4 I5].
  split.
  - intros sid sd e Hs. exact (I4 sid (sd, e) Hs).
  - intros ph v e Hb. exact (I5 ph (v, e) Hb).
Qed.

Lemma live_lookup {V : Type} (t : Z) (m : gmap string (V * Z)) (k : string)
    (v : V) :
  live t m k = Some v -> exists e, m !! k = Some (v, e).
Proof.
  unfold live. destruct (m !! k) as [[v' e]|]; [|discriminate].
  destruct (t <? e); [|discriminate]. intros [= ->]. by exists e.
Qed.

(** X19. In every world reached from the empty one, process-verification
    for a live VERIFICATION session always finds the profile of the
    session's number; when the SMS can be sent, its outcome is SUCCESS for
    a score above 0.85, else LOCKED_OUT when the incremented count is at
    least 3 and FAILURE when it is not: never the error. *)
Theorem reachable_verification_finds_profile
    (rs : list Request) (env : Env) (sid url : string) (sd : Session.t) :
  live (now env) (session (redis (serve_all rs fresh_world))) sid = Some sd ->
  Session.type sd = VERIFICATION ->
  sms_ok env = true ->
  exists i p,
    list_find (fun q => VoiceProfile.phoneNumber q = Session.phoneNumber sd)
              (profiles (serve_all rs fresh_world)) = Some (i, p)
    /\ outcome (fst (run_twiml (processVerification env sid url)
                               (serve_all rs fresh_world)))
       = if above_threshold
              (verifyVoicePrint env url (VoiceProfile.voicePrint p))
         then SUCCESS
         else if VoiceProfile.verificationAttempts p + 1 >=? 3
              then LOCKED_OUT else FAILURE.
Proof.
  intros Hs Hty Hsms. set (w := serve_all rs fresh_world) in *.
  destruct (serve_all_consistent rs fresh_world fresh_world_consistent)
    as [_ _ _ I4 _]. fold w in I4.
  destruct (live_lookup _ _ _ _ Hs) as [e He].
  pose proof (I4 sid (sd, e) He) as Hok. unfold session_ok in Hok.
  cbn in Hok. rewrite Hty in Hok. destruct Hok as [_ Hin].
  unfold phoneNumbers in Hin.
  apply list_elem_of_fmap in Hin as (p0 & Hp0 & Hin0).
  destruct (list_find_elem_of
              (fun q => VoiceProfile.phoneNumber q = Session.phoneNumber sd)
              (profiles w) p0 Hin0 (eq_sym Hp0)) as [[i p] Hf].
  exists i, p. split; [exact Hf|].
  destruct (above_threshold
              (verifyVoicePrint env url (VoiceProfile.voicePrint p))) eqn:Ht.
  - pose proof (processVerification_success env sid url w sd i p Hs Hf Ht)
      as Hrun. cbn zeta in Hrun. rewrite Hrun, Hsms. reflexivity.
  - rewrite (processVerification_failure env sid url w sd i p Hs Hf Ht).
    destruct (_ >=? 3); reflexivity.
Qed.

Lemma reachable_sessions_and_lockouts_witness :
  (exists r, Some 85 = Some r /\ 0 <= r <= 100)
  /\ example_phone
     ∈ phoneNumbers (profiles (serve_all example_requests fresh_world)).
Proof.
  exact (proj1 (reachable_sessions_and_lockouts example_requests) "S2"
               (Session.mk example_phone "CA2" VERIFICATION (Some 85)
                           (Some "CRYPTO") (Some (Num 12000)) (noon + 90000))
               (noon + 90000 + 3600000) eq_refl).
Defined.

Lemma reachable_verification_finds_profile_witness :
  exists i p,
    list_find (fun q => VoiceProfile.phoneNumber q = example_phone)
              (profiles (serve_all example_requests fresh_world))
    = Some (i, p)
    /\ outcome (fst (run_twiml
                       (processVerification (passing_request 120000) "S2"
                                            example_recording)
                       (serve_all example_requests fresh_world)))
       = SUCCESS.
Proof.
  destruct (reachable_verification_finds_profile example_requests
              (passing_request 120000) "S2" example_recording
              (Session.mk example_phone "CA2" VERIFICATION (Some 85)
                          (Some "CRYPTO") (Some (Num 12000)) (noon + 90000)))
    as (i & p & Hf & Ho); try decide_closed.
  exists i, p. split; [exact Hf|]. rewrite Ho. reflexivity.
Defined.

(** ** Statistics *)

Lemma start_of_day_le (env : Env) : start_of_day env <= now env.
Proof.
  unfold start_of_day.
  pose proof (Z.mod_pos_bound (now env + local_offset env) 86400000). lia.
Qed.

Lemma todayVerifications_app (env : Env) (w : World) (als : list AuditLog.t)
    (r : Redis) (ps : list VoiceProfile.t) (h : list Effect) :
  todayVerifications (stats env (mkWorld r ps (auditLogs w ++ als) h))
  = (todayVerifications (stats env w)
     + todayVerifications (stats env (mkWorld r ps als h)))%nat.
Proof.
  unfold stats. cbn [todayVerifications auditLogs].
  by rewrite filter_app, length_app.
Qed.

(** X20. What a verification does to the statistics read at the same
    instant: the number of profiles stays the same, and the number of
    verifications of the day goes up by one when the outcome is SUCCESS and
    stays the same otherwise (failure, lockout, error, and a match whose
    SMS could not be sent). *)
Theorem stats_after_verification
    (env : Env) (sid url : string) (w : World) :
  totalProfiles
    (stats env (snd (run_twiml (processVerification env sid url) w)))
  = totalProfiles (stats env w)
  /\ todayVerifications
       (stats env (snd (run_twiml (processVerification env sid url) w)))
     = (todayVerifications (stats env w)
        + match outcome (fst (run_twiml (processVerification env sid url) w))
          with
          | SUCCESS => 1
          | _ => 0
          end)%nat.
Proof.
  destruct (live (now env) (session (redis w)) sid) as [sd|] eqn:Hs.
  2:{ rewrite (processVerification_no_session env sid url w Hs).
      cbn. split; [reflexivity | lia]. }
  destruct (list_find
              (fun q => VoiceProfile.phoneNumber q = Session.phoneNumber sd)
              (profiles w)) as [[i p]|] eqn:Hf.
  2:{ rewrite (processVerification_no_profile env sid url w sd Hs Hf).
      cbn. split; [reflexivity | lia]. }
  destruct (above_threshold
              (verifyVoicePrint env url (VoiceProfile.voicePrint p))) eqn:Ht.
  - pose proof (processVerification_success env sid url w sd i p Hs Hf Ht)
      as Hrun. cbn zeta in Hrun. rewrite Hrun.
    destruct (sms_ok env); cbn [fst snd].
    + split.
      * cbn. apply length_insert.
      * rewrite todayVerifications_app. f_equal.
        unfold stats. cbn [todayVerifications auditLogs].
        rewrite filter_cons_True; [reflexivity|].
        cbn. split; [reflexivity | apply start_of_day_le].
    + cbn. rewrite length_insert. split; [reflexivity | lia].
  - rewrite (processVerification_failure env sid url w sd i p Hs Hf Ht).
    destruct (_ >=? 3); cbn; rewrite length_insert;
      (split; [reflexivity | lia]).
Qed.

(** X21. What an enrollment does to the statistics: either it ends with
    the error prompt and both numbers stay the same, or it announces a
    confirmation code and there is one profile more; the verifications of
    the day never change. *)
Theorem stats_after_enrollment
    (env env' : Env) (sid url : string) (From FromCarrier : option string)
    (w : World) :
  (fst (run_twiml (processEnrollment env sid url From FromCarrier) w)
   = [Say EnrollmentProblem; Hangup]
   /\ stats env'
        (snd (run_twiml (processEnrollment env sid url From FromCarrier) w))
      = stats env' w)
  \/ (fst (run_twiml (processEnrollment env sid url From FromCarrier) w)
      = [Say (ProfileCreated (confirmationCode env)); Say ThanksEnrollment;
         Hangup]
      /\ stats env'
           (snd (run_twiml (processEnrollment env sid url From FromCarrier)
                           w))
         = mkStats (S (totalProfiles (stats env' w)))
                   (todayVerifications (stats env' w))).
Proof.
  destruct (live (now env) (session (redis w)) sid) as [sd|] eqn:Hs.
  - destruct (required_ok
                (new_profile env (Session.phoneNumber sd) From FromCarrier)
              && negb (userId_taken (uuid env) (profiles w))) eqn:Hok.
    + right.
      rewrite (processEnrollment_saved env sid url _ _ w sd Hs Hok).
      split; [reflexivity|]. unfold stats.
      cbn [fst snd profiles auditLogs totalProfiles todayVerifications].
      rewrite length_app, filter_app, length_app. cbn [length].
      rewrite filter_cons_False by (cbn; intros [? _]; discriminate).
      cbn. f_equal; lia.
    + left.
      rewrite (processEnrollment_rejected env sid url _ _ w sd Hs Hok).
      split; reflexivity.
  - left. rewrite (processEnrollment_no_session env sid url _ _ w Hs).
    split; reflexivity.
Qed.

(** ** What process-verification leaves alone *)

(** X22. Process-verification never adds or removes a profile and, in
    Redis, never touches a session (the one it has used stays live), a
    confirmation code or a challenge; the only lockout record it can write
    is the one of the number of the session it was called for. *)
Theorem processVerification_touches_only_its_number
    (env : Env) (sid url : string) (w : World) :
  length (profiles (snd (run_twiml (processVerification env sid url) w)))
  = length (profiles w)
  /\ session (redis (snd (run_twiml (processVerification env sid url) w)))
     = session (redis w)
  /\ confirm (redis (snd (run_twiml (processVerification env sid url) w)))
     = confirm (redis w)
  /\ challenge (redis (snd (run_twiml (processVerification env sid url) w)))
     = challenge (redis w)
  /\ forall ph : string,
       Session.phoneNumber <$> live (now env) (session (redis w)) sid
       <> Some ph ->
       blocked (redis (snd (run_twiml (processVerification env sid url) w)))
       !! ph
       = blocked (redis w) !! ph.
Proof.
  destruct (live (now env) (session (redis w)) sid) as [sd|] eqn:Hs.
  2:{ rewrite (processVerification_no_session env sid url w Hs).
      split_and!; reflexivity. }
  destruct (list_find
              (fun q => VoiceProfile.phoneNumber q = Session.phoneNumber sd)
              (profiles w)) as [[i p]|] eqn:Hf.
  2:{ rewrite (processVerification_no_profile env sid url w sd Hs Hf).
      split_and!; reflexivity. }
  destruct (above_threshold
              (verifyVoicePrint env url (VoiceProfile.voicePrint p))) eqn:Ht.
  - pose proof (processVerification_success env sid url w sd i p Hs Hf Ht)
      as Hrun. cbn zeta in Hrun. rewrite Hrun.
    destruct (sms_ok env); cbn [snd profiles redis];
      rewrite length_insert; split_and!; reflexivity.
  - rewrite (processVerification_failure env sid url w sd i p Hs Hf Ht).
    destruct (_ >=? 3);
      cbn [snd profiles redis session confirm challenge blocked];
      rewrite length_insert; split_and!; try reflexivity.
    intros ph Hne. unfold setex. apply lookup_insert_ne.
    intros Heq. apply Hne. cbn. by rewrite Heq.
Qed.

Lemma processVerification_touches_only_its_number_witness :
  blocked (redis after_failure_3) !! "+51911222333"
  = blocked (redis after_failure_2) !! "+51911222333".
Proof.
  apply (processVerification_touches_only_its_number (failing_request 3000)
           "S2" example_recording after_failure_2).
  vm_compute. discriminate.
Defined.

Lemma initiate_touches_only_its_session_witness :
  session (redis (snd (run_initiate (request (noon + 90000) "S9" (1 # 2)
                                             (Some "CA9"))
                         example_phone "CRYPTO" (Num 12000)
                         (enrolled_world 0)))) !! "S2"
  = session (redis (enrolled_world 0)) !! "S2".
Proof.
  apply (initiate_touches_only_its_session
           (request (noon + 90000) "S9" (1 # 2) (Some "CA9")) example_phone
           "CRYPTO" (Num 12000) (enrolled_world 0)).
  vm_compute. discriminate.
Defined.

(** ** Initiate for a number that is not enrolled *)

(** X5. For a number without a profile, initiate does not look at the
    transaction: whatever the type and the amount, the answer and the world
    left behind are the same; when the call is placed, the answer is the
    start of an enrollment and the session stored is an ENROLLMENT session
    that carries neither risk score, nor type, nor amount. *)
Theorem initiate_unknown_ignores_transaction
    (env : Env) (phoneNumber ty1 ty2 : string) (amt1 amt2 : JsNumber)
    (w : World) :
  list_find (fun q => VoiceProfile.phoneNumber q = phoneNumber) (profiles w)
  = None ->
  run_initiate env phoneNumber ty1 amt1 w
  = run_initiate env phoneNumber ty2 amt2 w
  /\ forall callSid,
       call_result env = Some callSid ->
       fst (run_initiate env phoneNumber ty1 amt1 w)
       = Some (EnrollmentStarted (uuid env))
       /\ live (now env)
               (session (redis (snd (run_initiate env phoneNumber ty1 amt1
                                                  w))))
               (uuid env)
          = Some (Session.mk phoneNumber callSid ENROLLMENT None None None
                             (now env)).
Proof.
  intros Hf. rewrite !(initiate_unknown env phoneNumber _ _ w Hf).
  split; [reflexivity|]. intros callSid Hc. cbn zeta. rewrite Hc.
  cbn [fst snd redis session]. split; [reflexivity|].
  apply live_setex. lia.
Qed.

Lemma initiate_unknown_ignores_transaction_witness :
  run_initiate (request noon "S1" (1 # 2) (Some "CA1")) example_phone
               "CRYPTO" (Num 12000) fresh_world
  = run_initiate (request noon "S1" (1 # 2) (Some "CA1")) example_phone
                 "TRANSFER" NaN fresh_world.
Proof.
  apply (initiate_unknown_ignores_transaction
           (request noon "S1" (1 # 2) (Some "CA1")) example_phone).
  reflexivity.
Defined.
